(** * Verification of the URL-discovery core of cuban_URL.py

    A shallow embedding of [CubanURLDiscovery] (src/cuban_URL.py):
    - Python [str] values are lists of Unicode code points ([list Z]);
    - the network ([requests.get]), the clock ([datetime.now]) and
      [urlparse(...).netloc] are parameters of a Section;
    - the effects of [check_url] and [probe_domain] are threaded through an
      explicit event history ([list event]) that records every GET request,
      every attempt made by [probe_domain] and every pacing sleep;
    - dictionaries are stdpp [gmap]s. *)

From Stdlib Require Import ZArith List String Ascii Bool Lia Permutation Sorted.
From stdpp Require Import base list gmap.
Import ListNotations.
Open Scope Z_scope.

(* ------------------------------------------------------------------ *)
(** ** Python strings *)

(** A Python [str] is a sequence of code points. *)
Abbreviation pystr := (list Z).

(** ASCII literal to code points, for writing constants. *)
Definition s2z (s : string) : pystr :=
  map (fun a => Z.of_nat (nat_of_ascii a)) (list_ascii_of_string s).

Fixpoint pystr_eqb (s t : pystr) : bool :=
  match s, t with
  | [], [] => true
  | a :: s', b :: t' => Z.eqb a b && pystr_eqb s' t'
  | _, _ => false
  end.

(** [c in s] for a one-character [c]. *)
Definition mem_char (c : Z) (s : pystr) : bool := existsb (Z.eqb c) s.

(** [x in xs] for a list of strings. *)
Definition mem_str (x : pystr) (xs : list pystr) : bool := existsb (pystr_eqb x) xs.

(** [s.startswith(p)]. *)
Fixpoint startswith (s p : pystr) : bool :=
  match p, s with
  | [], _ => true
  | c :: p', d :: s' => Z.eqb c d && startswith s' p'
  | _ :: _, [] => false
  end.

(** [str.isspace] for one code point (the characters Python's [strip()]
    removes). *)
Definition is_space (c : Z) : bool :=
  ((9 <=? c) && (c <=? 13)) || ((28 <=? c) && (c <=? 32)) ||
  (c =? 133) || (c =? 160) || (c =? 5760) ||
  ((8192 <=? c) && (c <=? 8202)) || (c =? 8232) || (c =? 8233) ||
  (c =? 8239) || (c =? 8287) || (c =? 12288).

Fixpoint lstrip (s : pystr) : pystr :=
  match s with
  | c :: s' => if is_space c then lstrip s' else s
  | [] => []
  end.

(** [s.strip()]. *)
Definition strip (s : pystr) : pystr := rev (lstrip (rev (lstrip s))).

(** The one-code-point lower-case mappings of [str.lower] (Python 3.11,
    Unicode 14.0), as runs [(lo, hi, step, delta)]: the code points
    [lo], [lo + step], ..., [hi] are lower-cased to themselves plus
    [delta].  U+0130 (LATIN CAPITAL LETTER I WITH DOT ABOVE), the one code
    point whose lower-case form has two code points, is handled in
    [lower_char], and the context rule for U+03A3 in [lower_at]. *)
Definition lower_runs : list (Z * Z * Z * Z) := [
  (65, 90, 1, 32); (192, 214, 1, 32); (216, 222, 1, 32); (256, 302, 2, 1);
  (306, 310, 2, 1); (313, 327, 2, 1); (330, 374, 2, 1); (376, 376, 1, -121);
  (377, 381, 2, 1); (385, 385, 1, 210); (386, 388, 2, 1); (390, 390, 1, 206);
  (391, 391, 1, 1); (393, 394, 1, 205); (395, 395, 1, 1); (398, 398, 1, 79);
  (399, 399, 1, 202); (400, 400, 1, 203); (401, 401, 1, 1);
  (403, 403, 1, 205); (404, 404, 1, 207); (406, 406, 1, 211);
  (407, 407, 1, 209); (408, 408, 1, 1); (412, 412, 1, 211);
  (413, 413, 1, 213); (415, 415, 1, 214); (416, 420, 2, 1);
  (422, 422, 1, 218); (423, 423, 1, 1); (425, 425, 1, 218); (428, 428, 1, 1);
  (430, 430, 1, 218); (431, 431, 1, 1); (433, 434, 1, 217); (435, 437, 2, 1);
  (439, 439, 1, 219); (440, 440, 1, 1); (444, 444, 1, 1); (452, 452, 1, 2);
  (453, 453, 1, 1); (455, 455, 1, 2); (456, 456, 1, 1); (458, 458, 1, 2);
  (459, 475, 2, 1); (478, 494, 2, 1); (497, 497, 1, 2); (498, 500, 2, 1);
  (502, 502, 1, -97); (503, 503, 1, -56); (504, 542, 2, 1);
  (544, 544, 1, -130); (546, 562, 2, 1); (570, 570, 1, 10795);
  (571, 571, 1, 1); (573, 573, 1, -163); (574, 574, 1, 10792);
  (577, 577, 1, 1); (579, 579, 1, -195); (580, 580, 1, 69);
  (581, 581, 1, 71); (582, 590, 2, 1); (880, 882, 2, 1); (886, 886, 1, 1);
  (895, 895, 1, 116); (902, 902, 1, 38); (904, 906, 1, 37);
  (908, 908, 1, 64); (910, 911, 1, 63); (913, 929, 1, 32); (931, 939, 1, 32);
  (975, 975, 1, 8); (984, 1006, 2, 1); (1012, 1012, 1, -60);
  (1015, 1015, 1, 1); (1017, 1017, 1, -7); (1018, 1018, 1, 1);
  (1021, 1023, 1, -130); (1024, 1039, 1, 80); (1040, 1071, 1, 32);
  (1120, 1152, 2, 1); (1162, 1214, 2, 1); (1216, 1216, 1, 15);
  (1217, 1229, 2, 1); (1232, 1326, 2, 1); (1329, 1366, 1, 48);
  (4256, 4293, 1, 7264); (4295, 4295, 1, 7264); (4301, 4301, 1, 7264);
  (5024, 5103, 1, 38864); (5104, 5109, 1, 8); (7312, 7354, 1, -3008);
  (7357, 7359, 1, -3008); (7680, 7828, 2, 1); (7838, 7838, 1, -7615);
  (7840, 7934, 2, 1); (7944, 7951, 1, -8); (7960, 7965, 1, -8);
  (7976, 7983, 1, -8); (7992, 7999, 1, -8); (8008, 8013, 1, -8);
  (8025, 8031, 2, -8); (8040, 8047, 1, -8); (8072, 8079, 1, -8);
  (8088, 8095, 1, -8); (8104, 8111, 1, -8); (8120, 8121, 1, -8);
  (8122, 8123, 1, -74); (8124, 8124, 1, -9); (8136, 8139, 1, -86);
  (8140, 8140, 1, -9); (8152, 8153, 1, -8); (8154, 8155, 1, -100);
  (8168, 8169, 1, -8); (8170, 8171, 1, -112); (8172, 8172, 1, -7);
  (8184, 8185, 1, -128); (8186, 8187, 1, -126); (8188, 8188, 1, -9);
  (8486, 8486, 1, -7517); (8490, 8490, 1, -8383); (8491, 8491, 1, -8262);
  (8498, 8498, 1, 28); (8544, 8559, 1, 16); (8579, 8579, 1, 1);
  (9398, 9423, 1, 26); (11264, 11311, 1, 48); (11360, 11360, 1, 1);
  (11362, 11362, 1, -10743); (11363, 11363, 1, -3814);
  (11364, 11364, 1, -10727); (11367, 11371, 2, 1); (11373, 11373, 1, -10780);
  (11374, 11374, 1, -10749); (11375, 11375, 1, -10783);
  (11376, 11376, 1, -10782); (11378, 11378, 1, 1); (11381, 11381, 1, 1);
  (11390, 11391, 1, -10815); (11392, 11490, 2, 1); (11499, 11501, 2, 1);
  (11506, 11506, 1, 1); (42560, 42604, 2, 1); (42624, 42650, 2, 1);
  (42786, 42798, 2, 1); (42802, 42862, 2, 1); (42873, 42875, 2, 1);
  (42877, 42877, 1, -35332); (42878, 42886, 2, 1); (42891, 42891, 1, 1);
  (42893, 42893, 1, -42280); (42896, 42898, 2, 1); (42902, 42920, 2, 1);
  (42922, 42922, 1, -42308); (42923, 42923, 1, -42319);
  (42924, 42924, 1, -42315); (42925, 42925, 1, -42305);
  (42926, 42926, 1, -42308); (42928, 42928, 1, -42258);
  (42929, 42929, 1, -42282); (42930, 42930, 1, -42261);
  (42931, 42931, 1, 928); (42932, 42946, 2, 1); (42948, 42948, 1, -48);
  (42949, 42949, 1, -42307); (42950, 42950, 1, -35384); (42951, 42953, 2, 1);
  (42960, 42960, 1, 1); (42966, 42968, 2, 1); (42997, 42997, 1, 1);
  (65313, 65338, 1, 32); (66560, 66599, 1, 40); (66736, 66771, 1, 40);
  (66928, 66938, 1, 39); (66940, 66954, 1, 39); (66956, 66962, 1, 39);
  (66964, 66965, 1, 39); (68736, 68786, 1, 64); (71840, 71871, 1, 32);
  (93760, 93791, 1, 32); (125184, 125217, 1, 34)
].

Definition expand_run (r : Z * Z * Z * Z) : list (Z * Z) :=
  let '(lo, hi, step, delta) := r in
  map (fun i => let c := lo + step * Z.of_nat i in (c, c + delta))
      (seq 0 (Z.to_nat ((hi - lo) / step + 1))).

(** The same mappings, one pair [(c, lower c)] per code point, in
    increasing order of [c]. *)
Definition lower_table : list (Z * Z) := Eval vm_compute in flat_map expand_run lower_runs.

(** Lookup in a table sorted by key. *)
Fixpoint lower_lookup (c : Z) (t : list (Z * Z)) : option Z :=
  match t with
  | [] => None
  | (k, v) :: t' => if c <? k then None else if c =? k then Some v else lower_lookup c t'
  end.

(** [str.lower] on one code point, out of context. *)
Definition lower_char (c : Z) : pystr :=
  if c =? 304 then [105; 775]
  else match lower_lookup c lower_table with
       | Some v => [v]
       | None => [c]
       end.

(** The code points the capital-sigma rule of [str.lower] skips
    (Case_Ignorable, Unicode 14.0), as ranges [(lo, hi)]. *)
Definition case_ignorable_ranges : list (Z * Z) := [
  (39, 39); (46, 46); (58, 58); (94, 94); (96, 96); (168, 168); (173, 173);
  (175, 175); (180, 180); (183, 184); (688, 879); (884, 885); (890, 890);
  (900, 901); (903, 903); (1155, 1161); (1369, 1369); (1375, 1375);
  (1425, 1469); (1471, 1471); (1473, 1474); (1476, 1477); (1479, 1479);
  (1524, 1524); (1536, 1541); (1552, 1562); (1564, 1564); (1600, 1600);
  (1611, 1631); (1648, 1648); (1750, 1757); (1759, 1768); (1770, 1773);
  (1807, 1807); (1809, 1809); (1840, 1866); (1958, 1968); (2027, 2037);
  (2042, 2042); (2045, 2045); (2070, 2093); (2137, 2139); (2184, 2184);
  (2192, 2193); (2200, 2207); (2249, 2306); (2362, 2362); (2364, 2364);
  (2369, 2376); (2381, 2381); (2385, 2391); (2402, 2403); (2417, 2417);
  (2433, 2433); (2492, 2492); (2497, 2500); (2509, 2509); (2530, 2531);
  (2558, 2558); (2561, 2562); (2620, 2620); (2625, 2626); (2631, 2632);
  (2635, 2637); (2641, 2641); (2672, 2673); (2677, 2677); (2689, 2690);
  (2748, 2748); (2753, 2757); (2759, 2760); (2765, 2765); (2786, 2787);
  (2810, 2815); (2817, 2817); (2876, 2876); (2879, 2879); (2881, 2884);
  (2893, 2893); (2901, 2902); (2914, 2915); (2946, 2946); (3008, 3008);
  (3021, 3021); (3072, 3072); (3076, 3076); (3132, 3132); (3134, 3136);
  (3142, 3144); (3146, 3149); (3157, 3158); (3170, 3171); (3201, 3201);
  (3260, 3260); (3263, 3263); (3270, 3270); (3276, 3277); (3298, 3299);
  (3328, 3329); (3387, 3388); (3393, 3396); (3405, 3405); (3426, 3427);
  (3457, 3457); (3530, 3530); (3538, 3540); (3542, 3542); (3633, 3633);
  (3636, 3642); (3654, 3662); (3761, 3761); (3764, 3772); (3782, 3782);
  (3784, 3789); (3864, 3865); (3893, 3893); (3895, 3895); (3897, 3897);
  (3953, 3966); (3968, 3972); (3974, 3975); (3981, 3991); (3993, 4028);
  (4038, 4038); (4141, 4144); (4146, 4151); (4153, 4154); (4157, 4158);
  (4184, 4185); (4190, 4192); (4209, 4212); (4226, 4226); (4229, 4230);
  (4237, 4237); (4253, 4253); (4348, 4348); (4957, 4959); (5906, 5908);
  (5938, 5939); (5970, 5971); (6002, 6003); (6068, 6069); (6071, 6077);
  (6086, 6086); (6089, 6099); (6103, 6103); (6109, 6109); (6155, 6159);
  (6211, 6211); (6277, 6278); (6313, 6313); (6432, 6434); (6439, 6440);
  (6450, 6450); (6457, 6459); (6679, 6680); (6683, 6683); (6742, 6742);
  (6744, 6750); (6752, 6752); (6754, 6754); (6757, 6764); (6771, 6780);
  (6783, 6783); (6823, 6823); (6832, 6862); (6912, 6915); (6964, 6964);
  (6966, 6970); (6972, 6972); (6978, 6978); (7019, 7027); (7040, 7041);
  (7074, 7077); (7080, 7081); (7083, 7085); (7142, 7142); (7144, 7145);
  (7149, 7149); (7151, 7153); (7212, 7219); (7222, 7223); (7288, 7293);
  (7376, 7378); (7380, 7392); (7394, 7400); (7405, 7405); (7412, 7412);
  (7416, 7417); (7468, 7530); (7544, 7544); (7579, 7679); (8125, 8125);
  (8127, 8129); (8141, 8143); (8157, 8159); (8173, 8175); (8189, 8190);
  (8203, 8207); (8216, 8217); (8228, 8228); (8231, 8231); (8234, 8238);
  (8288, 8292); (8294, 8303); (8305, 8305); (8319, 8319); (8336, 8348);
  (8400, 8432); (11388, 11389); (11503, 11505); (11631, 11631);
  (11647, 11647); (11744, 11775); (11823, 11823); (12293, 12293);
  (12330, 12333); (12337, 12341); (12347, 12347); (12441, 12446);
  (12540, 12542); (40981, 40981); (42232, 42237); (42508, 42508);
  (42607, 42610); (42612, 42621); (42623, 42623); (42652, 42655);
  (42736, 42737); (42752, 42785); (42864, 42864); (42888, 42890);
  (42994, 42996); (43000, 43001); (43010, 43010); (43014, 43014);
  (43019, 43019); (43045, 43046); (43052, 43052); (43204, 43205);
  (43232, 43249); (43263, 43263); (43302, 43309); (43335, 43345);
  (43392, 43394); (43443, 43443); (43446, 43449); (43452, 43453);
  (43471, 43471); (43493, 43494); (43561, 43566); (43569, 43570);
  (43573, 43574); (43587, 43587); (43596, 43596); (43632, 43632);
  (43644, 43644); (43696, 43696); (43698, 43700); (43703, 43704);
  (43710, 43711); (43713, 43713); (43741, 43741); (43756, 43757);
  (43763, 43764); (43766, 43766); (43867, 43871); (43881, 43883);
  (44005, 44005); (44008, 44008); (44013, 44013); (64286, 64286);
  (64434, 64450); (65024, 65039); (65043, 65043); (65056, 65071);
  (65106, 65106); (65109, 65109); (65279, 65279); (65287, 65287);
  (65294, 65294); (65306, 65306); (65342, 65342); (65344, 65344);
  (65392, 65392); (65438, 65439); (65507, 65507); (65529, 65531);
  (66045, 66045); (66272, 66272); (66422, 66426); (67456, 67461);
  (67463, 67504); (67506, 67514); (68097, 68099); (68101, 68102);
  (68108, 68111); (68152, 68154); (68159, 68159); (68325, 68326);
  (68900, 68903); (69291, 69292); (69446, 69456); (69506, 69509);
  (69633, 69633); (69688, 69702); (69744, 69744); (69747, 69748);
  (69759, 69761); (69811, 69814); (69817, 69818); (69821, 69821);
  (69826, 69826); (69837, 69837); (69888, 69890); (69927, 69931);
  (69933, 69940); (70003, 70003); (70016, 70017); (70070, 70078);
  (70089, 70092); (70095, 70095); (70191, 70193); (70196, 70196);
  (70198, 70199); (70206, 70206); (70367, 70367); (70371, 70378);
  (70400, 70401); (70459, 70460); (70464, 70464); (70502, 70508);
  (70512, 70516); (70712, 70719); (70722, 70724); (70726, 70726);
  (70750, 70750); (70835, 70840); (70842, 70842); (70847, 70848);
  (70850, 70851); (71090, 71093); (71100, 71101); (71103, 71104);
  (71132, 71133); (71219, 71226); (71229, 71229); (71231, 71232);
  (71339, 71339); (71341, 71341); (71344, 71349); (71351, 71351);
  (71453, 71455); (71458, 71461); (71463, 71467); (71727, 71735);
  (71737, 71738); (71995, 71996); (71998, 71998); (72003, 72003);
  (72148, 72151); (72154, 72155); (72160, 72160); (72193, 72202);
  (72243, 72248); (72251, 72254); (72263, 72263); (72273, 72278);
  (72281, 72283); (72330, 72342); (72344, 72345); (72752, 72758);
  (72760, 72765); (72767, 72767); (72850, 72871); (72874, 72880);
  (72882, 72883); (72885, 72886); (73009, 73014); (73018, 73018);
  (73020, 73021); (73023, 73029); (73031, 73031); (73104, 73105);
  (73109, 73109); (73111, 73111); (73459, 73460); (78896, 78904);
  (92912, 92916); (92976, 92982); (92992, 92995); (94031, 94031);
  (94095, 94111); (94176, 94177); (94179, 94180); (110576, 110579);
  (110581, 110587); (110589, 110590); (113821, 113822); (113824, 113827);
  (118528, 118573); (118576, 118598); (119143, 119145); (119155, 119170);
  (119173, 119179); (119210, 119213); (119362, 119364); (121344, 121398);
  (121403, 121452); (121461, 121461); (121476, 121476); (121499, 121503);
  (121505, 121519); (122880, 122886); (122888, 122904); (122907, 122913);
  (122915, 122916); (122918, 122922); (123184, 123197); (123566, 123566);
  (123628, 123631); (125136, 125142); (125252, 125259); (127995, 127999);
  (917505, 917505); (917536, 917631); (917760, 917999)
].

(** The Cased code points that are not Case_Ignorable (the rule asks
    whether a code point is cased only after skipping the case-ignorable
    ones), as ranges [(lo, hi)]. *)
Definition cased_ranges : list (Z * Z) := [
  (65, 90); (97, 122); (170, 170); (181, 181); (186, 186); (192, 214);
  (216, 246); (248, 442); (444, 447); (452, 659); (661, 687); (880, 883);
  (886, 887); (891, 893); (895, 895); (902, 902); (904, 906); (908, 908);
  (910, 929); (931, 1013); (1015, 1153); (1162, 1327); (1329, 1366);
  (1376, 1416); (4256, 4293); (4295, 4295); (4301, 4301); (4304, 4346);
  (4349, 4351); (5024, 5109); (5112, 5117); (7296, 7304); (7312, 7354);
  (7357, 7359); (7424, 7467); (7531, 7543); (7545, 7578); (7680, 7957);
  (7960, 7965); (7968, 8005); (8008, 8013); (8016, 8023); (8025, 8025);
  (8027, 8027); (8029, 8029); (8031, 8061); (8064, 8116); (8118, 8124);
  (8126, 8126); (8130, 8132); (8134, 8140); (8144, 8147); (8150, 8155);
  (8160, 8172); (8178, 8180); (8182, 8188); (8450, 8450); (8455, 8455);
  (8458, 8467); (8469, 8469); (8473, 8477); (8484, 8484); (8486, 8486);
  (8488, 8488); (8490, 8493); (8495, 8500); (8505, 8505); (8508, 8511);
  (8517, 8521); (8526, 8526); (8544, 8575); (8579, 8580); (9398, 9449);
  (11264, 11387); (11390, 11492); (11499, 11502); (11506, 11507);
  (11520, 11557); (11559, 11559); (11565, 11565); (42560, 42605);
  (42624, 42651); (42786, 42863); (42865, 42887); (42891, 42894);
  (42896, 42954); (42960, 42961); (42963, 42963); (42965, 42969);
  (42997, 42998); (43002, 43002); (43824, 43866); (43872, 43880);
  (43888, 43967); (64256, 64262); (64275, 64279); (65313, 65338);
  (65345, 65370); (66560, 66639); (66736, 66771); (66776, 66811);
  (66928, 66938); (66940, 66954); (66956, 66962); (66964, 66965);
  (66967, 66977); (66979, 66993); (66995, 67001); (67003, 67004);
  (68736, 68786); (68800, 68850); (71840, 71903); (93760, 93823);
  (119808, 119892); (119894, 119964); (119966, 119967); (119970, 119970);
  (119973, 119974); (119977, 119980); (119982, 119993); (119995, 119995);
  (119997, 120003); (120005, 120069); (120071, 120074); (120077, 120084);
  (120086, 120092); (120094, 120121); (120123, 120126); (120128, 120132);
  (120134, 120134); (120138, 120144); (120146, 120485); (120488, 120512);
  (120514, 120538); (120540, 120570); (120572, 120596); (120598, 120628);
  (120630, 120654); (120656, 120686); (120688, 120712); (120714, 120744);
  (120746, 120770); (120772, 120779); (122624, 122633); (122635, 122654);
  (125184, 125251); (127280, 127305); (127312, 127337); (127344, 127369)
].

(** Membership in a list of ranges sorted by [lo]. *)
Fixpoint in_ranges (c : Z) (rs : list (Z * Z)) : bool :=
  match rs with
  | [] => false
  | (lo, hi) :: rs' => if c <? lo then false else if c <=? hi then true else in_ranges c rs'
  end.

Definition case_ignorable (c : Z) : bool := in_ranges c case_ignorable_ranges.
Definition cased (c : Z) : bool := in_ranges c cased_ranges.

Fixpoint skip_ignorable (s : pystr) : pystr :=
  match s with
  | [] => []
  | c :: s' => if case_ignorable c then skip_ignorable s' else s
  end.

(** [handle_capital_sigma] of CPython: a U+03A3 preceded by a cased code
    point and not followed by one (case-ignorable code points skipped on
    both sides) is in the Final_Sigma context.  [before] is the text
    before it, nearest code point first. *)
Definition final_sigma (before after : pystr) : bool :=
  match skip_ignorable before with
  | [] => false
  | c :: _ =>
      cased c &&
      match skip_ignorable after with
      | [] => true
      | c' :: _ => negb (cased c')
      end
  end.

(** [str.lower] on the code point [c] between [before] (reversed) and
    [after]: U+03A3 becomes U+03C2 (final sigma) or U+03C3, every other
    code point is looked up in the table. *)
Definition lower_at (before : pystr) (c : Z) (after : pystr) : pystr :=
  if c =? 931 then [if final_sigma before after then 962 else 963]
  else lower_char c.

Fixpoint lower_aux (before s : pystr) : pystr :=
  match s with
  | [] => []
  | c :: s' => lower_at before c s' ++ lower_aux (c :: before) s'
  end.

(** [s.lower()]. *)
Definition py_lower (s : pystr) : pystr := lower_aux [] s.

(** [s.split(sep)[0]] for a one-character separator. *)
Fixpoint split0 (sep : Z) (s : pystr) : pystr :=
  match s with
  | [] => []
  | c :: s' => if Z.eqb c sep then [] else c :: split0 sep s'
  end.

(** [s.find(sub, start)]: the least index [i >= start] at which [sub]
    occurs, [None] for [-1]. *)
Fixpoint find_from (sub s : pystr) (i : nat) (fuel : nat) : option nat :=
  match fuel with
  | O => None
  | S f =>
      if startswith (drop i s) sub then Some i
      else find_from sub s (S i) f
  end.

Definition py_find (s sub : pystr) (start : nat) : option nat :=
  if Nat.ltb (length s) start then None
  else find_from sub s start (S (length s - start)).

(** [s[a:b]] for non-negative [a] and [b] (Python clamps both to the
    length, and yields the empty string when [b <= a]). *)
Definition slice (s : pystr) (a b : nat) : pystr := take (b - a) (drop a s).

(* ------------------------------------------------------------------ *)
(** ** clean_domain (lines 200-221) *)

Definition clean_domain (domain : pystr) : pystr :=
  let domain := strip domain in
  let domain :=
    if startswith domain (s2z "http://") then drop 7 domain
    else if startswith domain (s2z "https://") then drop 8 domain
    else domain in
  let domain := if startswith domain (s2z "www.") then drop 4 domain else domain in
  let domain := split0 35 (split0 63 (split0 47 domain)) in   (* '#', '?', '/' *)
  let domain := if mem_char 58 domain then split0 58 domain else domain in  (* ':' *)
  py_lower domain.

(* ------------------------------------------------------------------ *)
(** ** extract_title (lines 268-279) *)

Definition extract_title (html : pystr) : pystr :=
  match py_find (py_lower html) (s2z "<title>") 0 with
  | Some start =>
      match py_find (py_lower html) (s2z "</title>") start with
      | Some end_ => take 200 (strip (slice html (start + 7) end_))
      | None => []
      end
  | None => []
  end.

(* ------------------------------------------------------------------ *)
(** ** Requests, results and the event history *)

(** What [requests.get] hands back on success. *)
Record response := {
  resp_status : Z;                      (* response.status_code *)
  resp_url : pystr;                     (* response.url, after redirects *)
  resp_text : pystr;                    (* response.text *)
  resp_content_len : Z;                 (* len(response.content) *)
  resp_server : option pystr;           (* response.headers['Server'] *)
  resp_content_type : option pystr      (* response.headers['Content-Type'] *)
}.

(** How one [requests.get] call ends. *)
Inductive get_outcome :=
| GetOk (r : response)
| GetSSLError                           (* requests.exceptions.SSLError *)
| GetOtherError.                        (* any other exception *)

(** The dictionary built by [check_url]. *)
Record probe_result := {
  url : pystr;
  status_code : Z;
  final_url : pystr;
  title : pystr;
  content_length : Z;
  server : pystr;
  content_type : pystr;
  discovery_time : pystr;
  domain : pystr
}.

Inductive protocol := Https | Http.

Definition protocol_str (p : protocol) : pystr :=
  match p with Https => s2z "https" | Http => s2z "http" end.

(** Observable events, in order. *)
Inductive event :=
| Get (u : pystr)                                  (* one requests.get *)
| Attempt (p : protocol) (path : pystr) (res : option probe_result)
                                                   (* one check_url call of probe_domain *)
| Sleep.                                           (* time.sleep(0.1) *)

Abbreviation history := (list event).

(** Truthiness of a Python list. *)
Definition nonempty {A} (l : list A) : bool :=
  match l with [] => false | _ => true end.

(** [s.replace(old, new)]: every non-overlapping occurrence, left to right
    ([old] non-empty). *)
Fixpoint replace_fuel (fuel : nat) (old new s : pystr) : pystr :=
  match fuel with
  | O => s
  | S f =>
      match s with
      | [] => []
      | c :: s' =>
          if startswith s old then new ++ replace_fuel f old new (drop (length old) s)
          else c :: replace_fuel f old new s'
      end
  end.

Definition replace (old new s : pystr) : pystr := replace_fuel (length s) old new s.

(** The fixed list [self.paths] (lines 20-62). *)
Definition paths : list pystr := map s2z [
  "/"; "/index.html"; "/index.php"; "/home"; "/inicio"; "/portal"; "/admin";
  "/login"; "/acceso"; "/tramites"; "/servicios"; "/ciudadano"; "/consulta";
  "/noticias"; "/prensa"; "/transparencia"; "/estadisticas"; "/contacto";
  "/acerca"; "/sobre"; "/directorio"; "/enlaces"; "/documentos";
  "/normativas"; "/leyes"; "/resoluciones"; "/downloads"; "/descargas";
  "/buscar"; "/search"; "/sitemap.xml"; "/robots.txt"; "/api";
  "/servicios-web"; "/webservices"; "/css/style.css"; "/images"; "/media";
  "/uploads"; "/files"; "/archivos"]%string.

(** [urljoin(base_url, path)] for [base_url = "<protocol>://<domain>"] and
    one of the absolute, dot-free [paths]: the path is appended to the
    scheme and network location of the base. *)
Definition urljoin (base path : pystr) : pystr := base ++ path.

Definition base_url (p : protocol) (d : pystr) : pystr :=
  protocol_str p ++ s2z "://" ++ d.

Section Network.

(** [requests.get(url, ...)] given everything that happened before. *)
Variable net : history -> pystr -> get_outcome.
(** [datetime.now().strftime(...)]. *)
Variable clock : history -> pystr.
(** [urlparse(u).netloc]; [None] when it raises [ValueError]. *)
Variable urlparse_netloc : pystr -> option pystr.

(** The body of the [try] of [check_url] after a successful GET; [None]
    when building the dictionary raises (then [except Exception]). *)
Definition build_result (u : pystr) (r : response) (h : history) : option probe_result :=
  match urlparse_netloc (resp_url r) with
  | Some d =>
      Some {| url := u;
              status_code := resp_status r;
              final_url := resp_url r;
              title := extract_title (resp_text r);
              content_length := resp_content_len r;
              server := default (s2z "Unknown") (resp_server r);
              content_type := default (s2z "Unknown") (resp_content_type r);
              discovery_time := clock h;
              domain := d |}
  | None => None
  end.

(** [check_url] (lines 237-266).  The recursive call on the SSL branch is
    bounded by [fuel] (number of nested calls allowed); [None] means the
    bound was hit.  [check_url_fuel_2_total] below shows two calls always
    suffice, so [check_url] uses fuel 2. *)
Fixpoint check_url_fuel (fuel : nat) (u : pystr) (h : history)
  : option (option probe_result * history) :=
  match fuel with
  | O => None
  | S f =>
      let h1 := h ++ [Get u] in
      match net h u with
      | GetOk r => Some (build_result u r h1, h1)
      | GetSSLError =>
          if startswith u (s2z "https://") then
            check_url_fuel f (replace (s2z "https://") (s2z "http://") u) h1
          else Some (None, h1)
      | GetOtherError => Some (None, h1)
      end
  end.

Definition check_url (u : pystr) (h : history) : option probe_result * history :=
  match check_url_fuel 2 u h with
  | Some p => p
  | None => (None, h)
  end.

(** The inner loop of [probe_domain] over [self.paths] for one protocol. *)
Fixpoint path_loop (p : protocol) (d : pystr) (ps : list pystr)
  (found : list probe_result) (h : history) : list probe_result * history :=
  match ps with
  | [] => (found, h)
  | path :: ps' =>
      let u := urljoin (base_url p d) path in
      let '(res, h1) := check_url u h in
      let h2 := h1 ++ [Attempt p path res] in
      match res with
      | Some r =>
          if status_code r <? 500 then
            let found' := found ++ [r] in
            if (match p with Https => true | Http => false end) && (status_code r =? 200)
            then (found', h2)                                    (* break *)
            else path_loop p d ps' found' (h2 ++ [Sleep])
          else path_loop p d ps' found (h2 ++ [Sleep])
      | None => path_loop p d ps' found (h2 ++ [Sleep])
      end
  end.

(** The outer loop over [['https', 'http']]. *)
Fixpoint protocol_loop (d : pystr) (protos : list protocol)
  (found : list probe_result) (h : history) : list probe_result * history :=
  match protos with
  | [] => (found, h)
  | p :: protos' =>
      let '(found', h') := path_loop p d paths found h in
      if nonempty found' && (match p with Https => true | Http => false end)
      then (found', h')                                          (* break *)
      else protocol_loop d protos' found' h'
  end.

(** [probe_domain] (lines 281-311). *)
Definition probe_domain (d : pystr) (h : history) : list probe_result * history :=
  protocol_loop d [Https; Http] [] h.

End Network.

(* ------------------------------------------------------------------ *)
(** ** probe_all_domains (lines 313-333) *)

(** How the future of one submitted [probe_domain] task ends:
    [future.result()] either returns the list or re-raises. *)
Inductive task_outcome :=
| Returned (rs : list probe_result)
| Raised (msg : pystr).

(** [future_to_domain]: one future per element of [domains]; future [i]
    runs [probe_domain(domains[i])]. *)
Definition future_to_domain (domains : list pystr) : gmap nat pystr :=
  map_seq 0 domains.

(** The [as_completed] loop.  [order] is the completion order of the
    futures; [outcome i] is how future [i] ended.  The result is the new
    [self.discovered_urls] and the domains whose error was printed; [None]
    stands for an exception escaping the loop (a [KeyError] on
    [future_to_domain[future]]). *)
Fixpoint collect (ftd : gmap nat pystr) (outcome : nat -> task_outcome)
  (order : list nat) (discovered : list probe_result) (errors : list pystr)
  : option (list probe_result * list pystr) :=
  match order with
  | [] => Some (discovered, errors)
  | fut :: order' =>
      match ftd !! fut with
      | None => None
      | Some d =>
          match outcome fut with
          | Returned rs =>
              collect ftd outcome order'
                (if nonempty rs then discovered ++ rs else discovered) errors
          | Raised _ => collect ftd outcome order' discovered (errors ++ [d])
          end
      end
  end.

Definition probe_all_domains (outcome : nat -> task_outcome) (order : list nat)
  (discovered : list probe_result) (domains : list pystr)
  : option (list probe_result * list pystr) :=
  collect (future_to_domain domains) outcome order discovered [].

(** What future [i] adds to [self.discovered_urls]. *)
Definition contribution (o : task_outcome) : list probe_result :=
  match o with Returned rs => rs | Raised _ => [] end.

(** The domain whose error line future [i] prints, if any. *)
Definition error_entry (domains : list pystr) (outcome : nat -> task_outcome) (i : nat)
  : list pystr :=
  match outcome i with
  | Raised _ => match domains !! i with Some d => [d] | None => [] end
  | Returned _ => []
  end.

(* ------------------------------------------------------------------ *)
(** ** generate_summary_report (lines 369-390) *)

(** [if k not in d: d[k] = 0] followed by [d[k] += 1]. *)
Definition bump {K} `{Countable K} (k : K) (m : gmap K nat) : gmap K nat :=
  let m1 := match m !! k with None => <[k := 0%nat]> m | Some _ => m end in
  <[k := S (default 0%nat (m1 !! k))]> m1.

Fixpoint summary_loop (rs : list probe_result) (domains_dict : gmap pystr nat)
  (status_summary : gmap Z nat) : gmap pystr nat * gmap Z nat :=
  match rs with
  | [] => (domains_dict, status_summary)
  | url_data :: rs' =>
      summary_loop rs' (bump (domain url_data) domains_dict)
        (bump (status_code url_data) status_summary)
  end.

(** The two dictionaries the report is written from; [None] for the early
    [return] on an empty [self.discovered_urls] (no summary is produced). *)
Definition generate_summary_report (discovered : list probe_result)
  : option (gmap pystr nat * gmap Z nat) :=
  if nonempty discovered then Some (summary_loop discovered ∅ ∅) else None.

(* ------------------------------------------------------------------ *)
(** ** load_domains (lines 131-198) *)

(** A value of a [csv.DictReader] row: a string, [None] (missing field,
    [restval]) or the list of surplus fields stored under [restkey]. *)
Inductive cell :=
| CStr (s : pystr)
| CNone
| CList (l : list pystr).

(** A row: keys in order ([None] is the [restkey] key). *)
Abbreviation row := (list (option pystr * cell)).

Definition domain_columns : list pystr := map s2z [
  "Domain"; "domain"; "URL"; "url"; "hostname"; "Hostname"; "site"; "Site";
  "website"; "Website"]%string.

Definition key_eqb (k k' : option pystr) : bool :=
  match k, k' with
  | Some a, Some b => pystr_eqb a b
  | None, None => true
  | _, _ => false
  end.

(** [row[k]] ([None] when [k not in row]). *)
Fixpoint row_get (k : pystr) (r : row) : option cell :=
  match r with
  | [] => None
  | (k', v) :: r' => if key_eqb (Some k) k' then Some v else row_get k r'
  end.

Definition truthy (v : cell) : bool :=
  match v with CStr s => nonempty s | CNone => false | CList l => nonempty l end.

Section Loading.

(** [str(l)] of a list of strings. *)
Variable repr_list : list pystr -> pystr.

Definition py_str (v : cell) : pystr :=
  match v with CStr s => s | CNone => s2z "None" | CList l => repr_list l end.

(** The loop over [domain_columns] (lines 163-167). *)
Fixpoint find_named (cols : list pystr) (r : row) : option pystr :=
  match cols with
  | [] => None
  | col :: cols' =>
      match row_get col r with
      | Some v =>
          if truthy v && nonempty (strip (py_str v)) then Some (strip (py_str v))
          else find_named cols' r
      | None => find_named cols' r
      end
  end.

(** The loop over [row.items()] (lines 176-182). *)
Fixpoint scan_any (r : row) (domains : list pystr) : list pystr :=
  match r with
  | [] => domains
  | (_, v) :: r' =>
      if truthy v && nonempty (strip (py_str v)) then
        let p := clean_domain (strip (py_str v)) in
        if mem_char 46 p && negb (mem_char 32 p) then             (* '.', ' ' *)
          (if mem_str p domains then domains else domains ++ [p])  (* break *)
        else scan_any r' domains
      else scan_any r' domains
  end.

(** One iteration of [for row in reader] (lines 163-182). *)
Definition process_row (domains : list pystr) (r : row) : list pystr :=
  match find_named domain_columns r with
  | Some d =>
      let cleaned := clean_domain d in
      if nonempty cleaned && negb (mem_str cleaned domains) then domains ++ [cleaned]
      else domains
  | None => scan_any r domains
  end.

(** [load_domains]: [valid] is [validate_csv_file]; [reader] is
    [Some (reader.fieldnames, rows)], or [None] when opening or reading the
    file raises; [save_ok] is [false] when [save_cleaned_domains] raises.
    Each exception is caught and gives [[]]. *)
Definition load_domains (valid : bool) (reader : option (list (option pystr) * list row))
  (save_ok : bool) : list pystr :=
  if negb valid then []
  else
    match reader with
    | None => []
    | Some (fieldnames, rows) =>
        if negb (nonempty fieldnames) then []
        else
          let domains := fold_left process_row rows [] in
          if save_ok then domains else []
    end.

End Loading.

(* ------------------------------------------------------------------ *)
(** ** Input checks of cuban_URL.py *)

(** [s.endswith(p)]. *)
Definition endswith (s p : pystr) : bool := startswith (rev s) (rev p).

(** The delimiter guess of [load_domains] (lines 139-151): [delimiter = ',']
    and then the first of [',', ';', '\t'] found in [sample = f.read(1024)]. *)
Definition delimiters : list Z := [44; 59; 9].

Fixpoint first_delimiter (ds : list Z) (sample : pystr) (delimiter : Z) : Z :=
  match ds with
  | [] => delimiter
  | d :: ds' => if mem_char d sample then d else first_delimiter ds' sample delimiter
  end.

Definition detect_delimiter (contents : pystr) : Z :=
  first_delimiter delimiters (take 1024 contents) 44.

(** What the file system holds at a path. *)
Inductive file_state :=
| Missing                        (* os.path.exists(filepath) is False *)
| Unreadable                     (* open(...) or f.read(1024) raises *)
| Contents (s : pystr).          (* the decoded text of the file *)

(** [validate_csv_file] (lines 108-129). *)
Definition validate_csv_file (filepath : pystr) (f : file_state) : bool :=
  if negb (endswith (py_lower filepath) (s2z ".csv")) then false
  else
    match f with
    | Missing => false
    | Unreadable => false
    | Contents s => negb (Nat.eqb (length (strip (take 1024 s))) 0)
    end.

Section Selecting.

(** [int(s)]; [None] when it raises [ValueError]. *)
Variable py_int : pystr -> option Z.

(** [select_csv_file] (lines 75-106): [csv_files] is what [find_csv_files]
    returned, [line] what [input()] returned. *)
Definition select_csv_file (csv_files : list pystr) (line : pystr) : option pystr :=
  if negb (nonempty csv_files) then None
  else
    let choice := strip line in
    let choice := if nonempty choice then choice else s2z "1" in
    match py_int choice with
    | None => None
    | Some n =>
        let selected_index := n - 1 in
        if (0 <=? selected_index) && (selected_index <? Z.of_nat (length csv_files))
        then csv_files !! Z.to_nat selected_index
        else None
    end.

End Selecting.

Definition yes_answers : list pystr := map s2z ["y"; "yes"]%string.

(** The part of [run] (lines 474-488) between [load_domains] and
    [probe_all_domains]: [confirm] and [test] are the lines the two
    [input()] calls return; [None] when nothing is probed. *)
Definition run_domains (domains : list pystr) (confirm test : pystr) : option (list pystr) :=
  if negb (nonempty domains) then None
  else if negb (mem_str (py_lower confirm) yes_answers) then None
  else if Nat.ltb 10 (length domains) then
    (if mem_str (py_lower (strip test)) yes_answers then Some (take 5 domains)
     else Some domains)
  else Some domains.

(* ------------------------------------------------------------------ *)
(** ** Sorting *)

(** Python's stable [sorted] as an insertion sort: [before y x] says that
    [y], met earlier, stays ahead of [x]; [x] is put after every such
    element. *)
Fixpoint insert_by {A} (before : A -> A -> bool) (x : A) (l : list A) : list A :=
  match l with
  | [] => [x]
  | y :: l' => if before y x then y :: insert_by before x l' else x :: l
  end.

Definition sort_by {A} (before : A -> A -> bool) (l : list A) : list A :=
  fold_left (fun acc x => insert_by before x acc) l [].

(** [s < t] on Python strings: lexicographic on code points. *)
Fixpoint str_ltb (s t : pystr) : bool :=
  match s, t with
  | _, [] => false
  | [], _ :: _ => true
  | a :: s', b :: t' => (a <? b) || ((a =? b) && str_ltb s' t')
  end.

(** [sorted(xs)] for a list of strings. *)
Definition py_sorted_str (xs : list pystr) : list pystr :=
  sort_by (fun y x => negb (str_ltb x y)) xs.

(** The rows [save_cleaned_domains] (lines 223-235) writes. *)
Definition save_cleaned_domains (domains : list pystr) : list (list pystr) :=
  [s2z "Domain"] :: map (fun d => [d]) (py_sorted_str domains).

(* ------------------------------------------------------------------ *)
(** ** The files and lines of generate_summary_report (lines 369-419) *)

(** A Python dict with its insertion order, as a list of items. *)
Fixpoint od_get {K} `{EqDecision K} (k : K) (d : list (K * nat)) : option nat :=
  match d with
  | [] => None
  | (k', v) :: d' => if decide (k = k') then Some v else od_get k d'
  end.

(** [d[k] = v]: updates the item in place, or appends it. *)
Fixpoint od_set {K} `{EqDecision K} (k : K) (v : nat) (d : list (K * nat)) : list (K * nat) :=
  match d with
  | [] => [(k, v)]
  | (k', v') :: d' => if decide (k = k') then (k', v) :: d' else (k', v') :: od_set k v d'
  end.

(** [if k not in d: d[k] = 0] followed by [d[k] += 1]. *)
Definition od_bump {K} `{EqDecision K} (k : K) (d : list (K * nat)) : list (K * nat) :=
  let d1 := match od_get k d with None => od_set k 0%nat d | Some _ => d end in
  od_set k (S (default 0%nat (od_get k d1))) d1.

(** The loop of lines 378-390, keeping the dicts' order. *)
Fixpoint report_loop (rs : list probe_result) (domains_dict : list (pystr * nat))
  (status_summary : list (Z * nat)) : list (pystr * nat) * list (Z * nat) :=
  match rs with
  | [] => (domains_dict, status_summary)
  | url_data :: rs' =>
      report_loop rs' (od_bump (domain url_data) domains_dict)
        (od_bump (status_code url_data) status_summary)
  end.

(** [sorted(domains_dict.items(), key=lambda x: x[1], reverse=True)]. *)
Definition domain_summary_rows (domains_dict : list (pystr * nat)) : list (pystr * nat) :=
  sort_by (fun y x => Nat.leb x.2 y.2) domains_dict.

(** [<=] on [(int, int)] tuples. *)
Definition tuple_le (a b : Z * nat) : bool :=
  (a.1 <? b.1) || ((a.1 =? b.1) && Nat.leb a.2 b.2).

(** [sorted(status_summary.items())]. *)
Definition status_summary_rows (status_summary : list (Z * nat)) : list (Z * nat) :=
  sort_by (fun y x => tuple_le y x) status_summary.

(** [max(items, key=lambda x: x[1])]: the first item of largest count. *)
Fixpoint max_item (best : pystr * nat) (items : list (pystr * nat)) : pystr * nat :=
  match items with
  | [] => best
  | it :: items' => if Nat.ltb best.2 it.2 then max_item it items' else max_item best items'
  end.

(** [max(values)]. *)
Fixpoint max_value (best : nat) (vs : list nat) : nat :=
  match vs with
  | [] => best
  | v :: vs' => if Nat.ltb best v then max_value v vs' else max_value best vs'
  end.

(** [[code for code in status_summary.keys() if 200 <= code < 400]]. *)
Definition successful_codes (status_summary : list (Z * nat)) : list Z :=
  List.filter (fun code => (200 <=? code) && (code <? 400)) (map fst status_summary).

(** [sum(status_summary[code] for code in successful_codes)]. *)
Definition successful_count (status_summary : list (Z * nat)) : nat :=
  fold_left (fun acc code => (acc + default 0%nat (od_get code status_summary))%nat)
    (successful_codes status_summary) 0%nat.

(** What the report writes and prints. *)
Record summary_report := {
  domain_rows : list (pystr * nat);        (* rows of the domain summary file *)
  status_rows : list (Z * nat);            (* rows of the status summary file *)
  domains_with_urls : nat;                 (* len(domains_dict) *)
  most_productive : pystr;                 (* max(items, key=count)[0] *)
  most_urls : nat;                         (* max(domains_dict.values()) *)
  successful : option nat                  (* the 2xx/3xx line, if printed *)
}.

(** [None]: the early [return]; a [max] of an empty dict (a [ValueError])
    cannot happen after a non-empty loop. *)
Definition summary_files (discovered : list probe_result) : option summary_report :=
  if negb (nonempty discovered) then None
  else
    let '(domains_dict, status_summary) := report_loop discovered [] [] in
    match domains_dict with
    | [] => None
    | it :: rest =>
        Some {| domain_rows := domain_summary_rows domains_dict;
                status_rows := status_summary_rows status_summary;
                domains_with_urls := length domains_dict;
                most_productive := (max_item it rest).1;
                most_urls := max_value it.2 (map snd rest);
                successful :=
                  if nonempty (successful_codes status_summary)
                  then Some (successful_count status_summary) else None |}
    end.

(* ------------------------------------------------------------------ *)
(** ** cuba_domain.py: CubanInfrastructureMapper *)

(** [s.split(sep)] for a one-character separator: all pieces, empty ones
    included. *)
Fixpoint py_split_aux (sep : Z) (s cur : pystr) : list pystr :=
  match s with
  | [] => [rev cur]
  | c :: s' => if c =? sep then rev cur :: py_split_aux sep s' [] else py_split_aux sep s' (c :: cur)
  end.

Definition py_split (sep : Z) (s : pystr) : list pystr := py_split_aux sep s [].

(** [sep.join(parts)]. *)
Fixpoint py_join (sep : pystr) (parts : list pystr) : pystr :=
  match parts with
  | [] => []
  | [p] => p
  | p :: ps => p ++ sep ++ py_join sep ps
  end.

Module Mapper.

(** A JSON value found under ['name_value']. *)
Inductive json_value :=
| JString (s : pystr)
| JOther.                      (* number, boolean, null, array or object *)

(** What [for entry in data] visits. *)
Inductive ct_entry :=
| CTObject (name_value : option json_value)   (* an object, with its 'name_value' member if any *)
| CTNotObject.                (* a string, number, ...: [entry.get] raises *)

(** The body as [response.json()] sees it.  Iterating a JSON object visits
    its keys and iterating a string its characters: both are [BodyItems]
    of [CTNotObject]s. *)
Inductive ct_body :=
| BodyInvalid                  (* response.json() raises *)
| BodyNotIterable              (* number, boolean or null: [for] raises *)
| BodyItems (data : list ct_entry).

Inductive ct_reply :=
| CTRaised                     (* requests.get raises *)
| CTReply (status : Z) (body : ct_body).

(** One name of [name.split('\n')] (lines 28-30). *)
Definition add_name (all_domains : gset pystr) (dom : pystr) : gset pystr :=
  let dom := py_lower (strip dom) in
  if nonempty dom && negb (startswith dom (s2z "*")) then {[ dom ]} ∪ all_domains
  else all_domains.

(** The loop over [data] (lines 25-30).  An exception leaves the loop, and
    the names added so far stay in [self.all_domains]. *)
Fixpoint add_entries (data : list ct_entry) (all_domains : gset pystr) : gset pystr :=
  match data with
  | [] => all_domains
  | CTNotObject :: _ => all_domains
  | CTObject nv :: data' =>
      match default (JString []) nv with
      | JString name => add_entries data' (fold_left add_name (py_split 10 name) all_domains)
      | JOther => all_domains                               (* .split raises *)
      end
  end.

Definition tlds : list pystr := map s2z ["gov.cu"; "gob.cu"]%string.

Definition crt_url (tld : pystr) : pystr :=
  s2z "https://crt.sh/?q=%." ++ tld ++ s2z "&output=json".

(** One iteration of [for tld in tlds]; [crt u] is how [requests.get(u)]
    ends. *)
Definition search_tld (crt : pystr -> ct_reply) (all_domains : gset pystr) (tld : pystr)
  : gset pystr :=
  match crt (crt_url tld) with
  | CTRaised => all_domains
  | CTReply status body =>
      if status =? 200 then
        match body with
        | BodyItems data => add_entries data all_domains
        | _ => all_domains
        end
      else all_domains
  end.

(** [search_certificates] (lines 12-36). *)
Definition search_certificates (crt : pystr -> ct_reply) (all_domains : gset pystr)
  : gset pystr :=
  fold_left (search_tld crt) tlds all_domains.

(** The dictionary appended by [enumerate_subdomains]. *)
Record sub_record := { sd_domain : pystr; sd_ip : pystr; sd_method : pystr }.

(** [base = '.'.join(parts[-2:])] when [len(parts) >= 2] (lines 76-79). *)
Definition base_of (domain : pystr) : option pystr :=
  let parts := py_split 46 domain in
  if Nat.leb 2 (length parts) then Some (py_join [46] (drop (length parts - 2) parts))
  else None.

(** [base_domains] (lines 74-79). *)
Definition base_domains (all_domains : gset pystr) : gset pystr :=
  list_to_set (omap base_of (elements all_domains)).

Definition wordlist : list pystr := map s2z [
  "www"; "mail"; "webmail"; "smtp"; "pop"; "imap";
  "ftp"; "sftp"; "admin"; "administrator";
  "portal"; "intranet"; "extranet"; "remote";
  "vpn"; "access"; "secure"; "ssl";
  "api"; "app"; "web"; "servidor";
  "servicios"; "tramites"; "ciudadano"; "consulta";
  "transparencia"; "prensa"; "noticias"; "estadisticas"]%string.

Section Dns.

(** [dns.resolver.resolve(name, 'A')]: the addresses as [str(ip)], [None]
    when it raises.  Each name is queried at most once by
    [check_all_subdomains] (a base has one '.', a word none), so a function
    of the name is as general as a changing resolver. *)
Variable resolve : pystr -> option (list pystr).

(** [enumerate_subdomains] (lines 38-57). *)
Fixpoint enumerate_subdomains (base_domain : pystr) (words : list pystr) : list sub_record :=
  match words with
  | [] => []
  | word :: words' =>
      let subdomain := word ++ [46] ++ base_domain in
      match resolve subdomain with
      | Some answers =>
          map (fun ip => {| sd_domain := subdomain; sd_ip := ip;
                            sd_method := s2z "dns_enum" |}) answers
      | None => []
      end ++ enumerate_subdomains base_domain words'
  end.

(** [check_all_subdomains] (lines 59-87): the new [self.subdomain_results]. *)
Definition check_all_subdomains (all_domains : gset pystr) (subdomain_results : list sub_record)
  : list sub_record :=
  subdomain_results ++
  flat_map (fun base => enumerate_subdomains base wordlist)
    (py_sorted_str (elements (base_domains all_domains))).

End Dns.

(** The rows of the two files of [save_results] (lines 89-111); the second
    file is written only when there are subdomain results. *)
Definition save_results (all_domains : gset pystr) (subdomain_results : list sub_record)
  : list (list pystr) * option (list (list pystr)) :=
  ([s2z "Domain"] :: map (fun d => [d]) (py_sorted_str (elements all_domains)),
   if nonempty subdomain_results then
     Some (map s2z ["domain"; "ip"; "method"]%string ::
           map (fun r => [sd_domain r; sd_ip r; sd_method r]) subdomain_results)
   else None).

(** [run] (lines 113-130) on a fresh mapper. *)
Definition run (crt : pystr -> ct_reply) (resolve : pystr -> option (list pystr))
  : list (list pystr) * option (list (list pystr)) :=
  let all_domains := search_certificates crt ∅ in
  let subdomain_results := check_all_subdomains resolve all_domains [] in
  save_results all_domains subdomain_results.

End Mapper.

(* ------------------------------------------------------------------ *)
(** ** Views of the history *)

(** The attempts [probe_domain] made, in order. *)
Definition attempts (h : history) : list (protocol * pystr * option probe_result) :=
  flat_map (fun e => match e with Attempt p path res => [(p, path, res)] | _ => [] end) h.

(** The results an attempt list says were appended to [found_urls]. *)
Definition recorded (a : list (protocol * pystr * option probe_result)) : list probe_result :=
  flat_map (fun '(_, _, res) =>
              match res with
              | Some r => if status_code r <? 500 then [r] else []
              | None => []
              end) a.

Definition is_get (e : event) : Prop := match e with Get _ => True | _ => False end.

(** The attempts made by one call of [probe_domain d] from history [h]. *)
Definition new_attempts net clock urlparse_netloc (d : pystr) (h : history)
  : list (protocol * pystr * option probe_result) :=
  attempts (drop (length h) (snd (probe_domain net clock urlparse_netloc d h))).

(** Number of results whose key [f r] is [k]. *)
Definition count_by {K} `{EqDecision K} (f : probe_result -> K) (k : K)
  (rs : list probe_result) : nat :=
  length (List.filter (fun r => bool_decide (f r = k)) rs).

(** A counter as a dictionary entry: absent when zero. *)
Definition count_entry (n : nat) : option nat :=
  match n with O => None | _ => Some n end.

(** Python's [c in s] for the four characters [clean_domain] cuts at:
    '/', '?', '#', ':'. *)
Definition no_url_delims (s : pystr) : Prop :=
  Forall (fun c => c <> 47 /\ c <> 63 /\ c <> 35 /\ c <> 58) s.

(** The list [domains] built by [load_domains]: no duplicates, and every
    entry a non-empty output of [clean_domain]. *)
Definition domains_ok (ds : list pystr) : Prop :=
  NoDup ds /\ Forall (fun d => d <> [] /\ exists s, d = clean_domain s) ds.

(* ------------------------------------------------------------------ *)
(** ** Concrete environments, for the instances below *)

Definition demo_clock (_ : history) : pystr := s2z "2026-01-01 00:00:00".

(** The text between ["://"] and the next ['/']. *)
Fixpoint demo_netloc_aux (s : pystr) : pystr :=
  match s with
  | [] => []
  | _ :: s' => if startswith s (s2z "://") then split0 47 (drop 3 s) else demo_netloc_aux s'
  end.

Definition demo_netloc (u : pystr) : option pystr := Some (demo_netloc_aux u).

Definition ok_response (u : pystr) : response :=
  {| resp_status := 200; resp_url := u; resp_text := s2z "<title>Portal</title>";
     resp_content_len := 21; resp_server := None; resp_content_type := None |}.

(** Every request answers 200 without redirect. *)
Definition net_all_ok (_ : history) (u : pystr) : get_outcome := GetOk (ok_response u).

(** TLS fails on every https URL; plain http answers 200. *)
Definition net_tls_broken (_ : history) (u : pystr) : get_outcome :=
  if startswith u (s2z "https://") then GetSSLError else GetOk (ok_response u).

(** Every request fails (DNS failure, refused connection, timeout, ...). *)
Definition net_down (_ : history) (_ : pystr) : get_outcome := GetOtherError.

Definition demo_host : pystr := s2z "a.example.cu".

Definition demo_result : probe_result :=
  {| url := s2z "https://a.example.cu/"; status_code := 200;
     final_url := s2z "https://a.example.cu/"; title := s2z "Portal";
     content_length := 21; server := s2z "Unknown"; content_type := s2z "Unknown";
     discovery_time := s2z "2026-01-01 00:00:00"; domain := s2z "a.example.cu" |}.

(* ------------------------------------------------------------------ *)
(** * Properties of check_url and probe_domain *)

Lemma attempts_app (a b : history) : attempts (a ++ b) = attempts a ++ attempts b.
Proof. unfold attempts. apply flat_map_app. Qed.

Lemma recorded_app a b : recorded (a ++ b) = recorded a ++ recorded b.
Proof. unfold recorded. apply flat_map_app. Qed.

Lemma attempts_gets (l : history) : Forall is_get l -> attempts l = [].
Proof.
  induction 1 as [|e l He _ IH]; [reflexivity|].
  destruct e; simpl in *; [exact IH|contradiction|contradiction].
Qed.

Lemma replace_https_prefix (u : pystr) :
  startswith u (s2z "https://") = true ->
  exists rest, replace (s2z "https://") (s2z "http://") u = s2z "http://" ++ rest.
Proof.
  intros H. unfold replace. destruct u as [|c u']; [discriminate|].
  simpl length. cbn [replace_fuel]. rewrite H. eexists. reflexivity.
Qed.

Lemma replace_https_not_https (u : pystr) :
  startswith u (s2z "https://") = true ->
  startswith (replace (s2z "https://") (s2z "http://") u) (s2z "https://") = false.
Proof.
  intros H. destruct (replace_https_prefix u H) as [rest ->]. reflexivity.
Qed.

Section NetworkFacts.

Variable net : history -> pystr -> get_outcome.
Variable clock : history -> pystr.
Variable urlparse_netloc : pystr -> option pystr.

(** The recursion of [check_url] never goes deeper than one nested call. *)
Lemma check_url_fuel_2_total (n : nat) (u : pystr) (h : history) :
  (2 <= n)%nat ->
  check_url_fuel net clock urlparse_netloc n u h = check_url_fuel net clock urlparse_netloc 2 u h /\
  check_url_fuel net clock urlparse_netloc 2 u h <> None.
Proof.
  intros Hn. destruct n as [|[|n]]; [lia|lia|].
  cbn [check_url_fuel].
  destruct (net h u) eqn:E1; [split; congruence|split; [|]|split; congruence].
  - destruct (startswith u (s2z "https://")) eqn:Hs; [|reflexivity].
    rewrite (replace_https_not_https u Hs). destruct n; cbn [check_url_fuel];
      destruct net; reflexivity.
  - destruct (startswith u (s2z "https://")) eqn:Hs; [|congruence].
    cbn [check_url_fuel]. rewrite (replace_https_not_https u Hs).
    destruct (net (h ++ [Get u]) _); discriminate.
Qed.

Lemma check_url_extends (u : pystr) (h : history) res h' :
  check_url net clock urlparse_netloc u h = (res, h') -> exists new, h' = h ++ new /\ attempts new = [].
Proof.
  unfold check_url.
  assert (Hgen : forall n u h res h',
             check_url_fuel net clock urlparse_netloc n u h = Some (res, h') ->
             exists new, h' = h ++ new /\ Forall is_get new).
  { induction n as [|n IH]; intros u0 h0 res0 h0' Hc; [discriminate|].
    cbn [check_url_fuel] in Hc.
    destruct (net h0 u0).
    - injection Hc as _ <-. exists [Get u0]. split; [reflexivity|repeat constructor].
    - destruct (startswith u0 (s2z "https://")).
      + destruct (IH _ _ _ _ Hc) as [new [-> Hf]].
        exists (Get u0 :: new). rewrite <- app_assoc. split; [reflexivity|].
        constructor; [exact I|exact Hf].
      + injection Hc as _ <-. exists [Get u0]. split; [reflexivity|repeat constructor].
    - injection Hc as _ <-. exists [Get u0]. split; [reflexivity|repeat constructor]. }
  destruct (check_url_fuel net clock urlparse_netloc 2 u h) as [[r0 h0]|] eqn:E.
  - intros [= <- <-]. destruct (Hgen _ _ _ _ _ E) as [new [-> Hf]].
    exists new. split; [reflexivity|]. apply attempts_gets, Hf.
  - intros [= <- <-]. exists []. rewrite app_nil_r. split; reflexivity.
Qed.

Lemma check_url_ssl_retry (u : pystr) (h : history) :
  startswith u (s2z "https://") = true -> net h u = GetSSLError ->
  let u' := replace (s2z "https://") (s2z "http://") u in
  let h1 := h ++ [Get u] in
  check_url net clock urlparse_netloc u h =
    (match net h1 u' with
     | GetOk r => build_result clock urlparse_netloc u' r (h1 ++ [Get u'])
     | _ => None
     end, h1 ++ [Get u']).
Proof.
  intros Hs Hn u' h1. unfold check_url.
  cbn [check_url_fuel]. rewrite Hn, Hs.
  cbn [check_url_fuel]. fold u' h1.
  assert (Hu : startswith u' (s2z "https://") = false)
    by exact (replace_https_not_https u Hs).
  rewrite Hu. destruct (net h1 u'); reflexivity.
Qed.

Lemma recorded_lt_500 a : Forall (fun r => status_code r < 500) (recorded a).
Proof.
  induction a as [|[[p path] [r|]] a IH]; simpl; [constructor| |exact IH].
  destruct (status_code r <? 500) eqn:E; simpl; [|exact IH].
  constructor; [apply Z.ltb_lt, E|exact IH].
Qed.

Lemma recorded_in a p path r :
  In (p, path, Some r) a -> status_code r < 500 -> In r (recorded a).
Proof.
  intros Hin Hlt. induction a as [|[[p0 path0] res0] a IH]; [destruct Hin|].
  simpl in *. apply in_or_app. destruct Hin as [Heq|Hin].
  - injection Heq as -> -> ->. left. apply Z.ltb_lt in Hlt. rewrite Hlt. left. reflexivity.
  - right. apply IH, Hin.
Qed.

Lemma split_cons_cases {A} (pre post l : list A) (x y : A) :
  pre ++ x :: post = y :: l ->
  (pre = [] /\ x = y /\ post = l) \/ (exists pre', pre = y :: pre' /\ pre' ++ x :: post = l).
Proof.
  destruct pre as [|z pre']; simpl; intros H; injection H as H1 H2.
  - left. auto.
  - right. exists pre'. subst. auto.
Qed.

(** What one pass of the path loop does to [found_urls] and the history. *)
Lemma path_loop_spec (p : protocol) (d : pystr) (ps : list pystr) found h found' h' :
  path_loop net clock urlparse_netloc p d ps found h = (found', h') ->
  exists new, h' = h ++ new /\
    found' = found ++ recorded (attempts new) /\
    Forall (fun a => a.1.1 = p) (attempts new) /\
    (forall pre post P r, attempts new = pre ++ (Https, P, Some r) :: post ->
       status_code r = 200 -> post = []).
Proof.
  revert found h. induction ps as [|path ps IH]; intros found h Hl.
  - injection Hl as <- <-. exists []. rewrite !app_nil_r.
    split; [reflexivity|]. split; [reflexivity|]. split; [constructor|].
    intros pre post P r Ha. destruct pre; discriminate.
  - cbn [path_loop] in Hl.
    destruct (check_url net clock urlparse_netloc
                (urljoin (base_url p d) path) h) as [res h1] eqn:Ec.
    destruct (check_url_extends _ _ _ _ Ec) as [new0 [-> Hg]].
    destruct res as [r|].
    + destruct (status_code r <? 500) eqn:Hlt.
      * destruct ((match p with Https => true | Http => false end) && (status_code r =? 200))
          eqn:Hb.
        -- injection Hl as <- <-.
           exists (new0 ++ [Attempt p path (Some r)]).
           rewrite attempts_app, Hg. simpl. rewrite Hlt, <- app_assoc.
           split; [reflexivity|]. split; [reflexivity|]. split; [repeat constructor|].
           intros pre post P r' Ha _. symmetry in Ha. apply split_cons_cases in Ha.
           destruct Ha as [[_ [_ ->]]|[pre' [_ Ha]]]; [reflexivity|].
           destruct pre'; discriminate.
        -- destruct (IH _ _ Hl) as [new1 [-> [-> [Hp Hs]]]].
           exists (new0 ++ [Attempt p path (Some r); Sleep] ++ new1).
           rewrite !attempts_app, Hg. simpl. rewrite Hlt, <- !app_assoc.
           split; [reflexivity|]. split; [reflexivity|]. split; [constructor; auto|].
           intros pre post P r' Ha H200. symmetry in Ha. apply split_cons_cases in Ha.
           destruct Ha as [[_ [Heq _]]|[pre' [_ Ha]]]; [|exact (Hs _ _ _ _ (eq_sym Ha) H200)].
           injection Heq as Hp0 _ Hr0. subst p r'. rewrite H200 in Hb. discriminate.
      * destruct (IH _ _ Hl) as [new1 [-> [-> [Hp Hs]]]].
        exists (new0 ++ [Attempt p path (Some r); Sleep] ++ new1).
        rewrite !attempts_app, Hg. simpl. rewrite Hlt, <- !app_assoc.
        split; [reflexivity|]. split; [reflexivity|]. split; [constructor; auto|].
        intros pre post P r' Ha H200. symmetry in Ha. apply split_cons_cases in Ha.
        destruct Ha as [[_ [Heq _]]|[pre' [_ Ha]]]; [|exact (Hs _ _ _ _ (eq_sym Ha) H200)].
        injection Heq as _ _ Hr0. subst r'. rewrite H200 in Hlt. discriminate.
    + destruct (IH _ _ Hl) as [new1 [-> [-> [Hp Hs]]]].
      exists (new0 ++ [Attempt p path None; Sleep] ++ new1).
      rewrite !attempts_app, Hg. simpl. rewrite <- !app_assoc.
      split; [reflexivity|]. split; [reflexivity|]. split; [constructor; auto|].
      intros pre post P r' Ha H200. symmetry in Ha. apply split_cons_cases in Ha.
      destruct Ha as [[_ [Heq _]]|[pre' [_ Ha]]]; [discriminate|exact (Hs _ _ _ _ (eq_sym Ha) H200)].
Qed.

(** The outer loop: the HTTP pass runs only after an HTTPS pass that
    recorded nothing. *)
Lemma probe_domain_cases (d : pystr) (h : history) f1 h1 :
  path_loop net clock urlparse_netloc Https d paths [] h = (f1, h1) ->
  (f1 <> [] /\ probe_domain net clock urlparse_netloc d h = (f1, h1)) \/
  (f1 = [] /\ probe_domain net clock urlparse_netloc d h = path_loop net clock urlparse_netloc Http d paths [] h1).
Proof.
  intros E. unfold probe_domain.
  cbn [protocol_loop]. rewrite E.
  destruct f1 as [|r f1]; cbn [nonempty andb].
  - right. split; [reflexivity|]. cbn [protocol_loop].
    destruct (path_loop net clock urlparse_netloc Http d paths [] h1) as [f2 h2].
    rewrite andb_false_r. reflexivity.
  - left. split; [discriminate|reflexivity].
Qed.

Lemma new_attempts_app (d : pystr) (h new : history) f :
  probe_domain net clock urlparse_netloc d h = (f, h ++ new) ->
  new_attempts net clock urlparse_netloc d h = attempts new.
Proof.
  intros E. unfold new_attempts. rewrite E. cbn [snd].
  rewrite drop_app_length. reflexivity.
Qed.

(** ** Claims about probe_domain net clock urlparse_netloc and check_url net clock urlparse_netloc *)

(** C1: every result [probe_domain] returns has a status code below 500;
    a [check_url] result with status 500 or more is never appended. *)
Theorem probe_domain_status_below_500 (d : pystr) (h : history) :
  Forall (fun r => status_code r < 500) (fst (probe_domain net clock urlparse_netloc d h)).
Proof.
  destruct (path_loop net clock urlparse_netloc Https d paths [] h) as [f1 h1] eqn:E1.
  destruct (path_loop_spec _ _ _ _ _ _ _ E1) as [new1 [_ [Hf1 _]]].
  destruct (probe_domain_cases d h f1 h1 E1) as [[_ ->]|[_ ->]].
  - rewrite Hf1. apply recorded_lt_500.
  - destruct (path_loop net clock urlparse_netloc Http d paths [] h1) as [f2 h2] eqn:E2.
    destruct (path_loop_spec _ _ _ _ _ _ _ E2) as [new2 [_ [-> _]]].
    apply recorded_lt_500.
Qed.

(** C2: once an HTTPS attempt records a status-200 result on path [P],
    [probe_domain] makes no further attempt at all: no later HTTPS path
    and no HTTP path. *)
Theorem probe_domain_https_200_stops (d : pystr) (h : history) pre post P r :
  new_attempts net clock urlparse_netloc d h = pre ++ (Https, P, Some r) :: post ->
  status_code r = 200 ->
  post = [].
Proof.
  intros Ha H200.
  destruct (path_loop net clock urlparse_netloc Https d paths [] h) as [f1 h1] eqn:E1.
  destruct (path_loop_spec _ _ _ _ _ _ _ E1) as [new1 [-> [Hf1 [Hp1 Hs1]]]].
  destruct (probe_domain_cases d h f1 (h ++ new1) E1) as [[_ E]|[Hnil E]].
  - rewrite (new_attempts_app d h new1 f1 E) in Ha. exact (Hs1 _ _ _ _ Ha H200).
  - destruct (path_loop net clock urlparse_netloc Http d paths [] (h ++ new1)) as [f2 h2] eqn:E2.
    destruct (path_loop_spec _ _ _ _ _ _ _ E2) as [new2 [-> [_ [Hp2 _]]]].
    rewrite <- app_assoc in E.
    rewrite (new_attempts_app d h (new1 ++ new2) f2 E), attempts_app in Ha.
    assert (Hin : In (Https, P, Some r) (attempts new1 ++ attempts new2))
      by (rewrite Ha; apply in_or_app; right; left; reflexivity).
    apply in_app_or in Hin as [Hin|Hin].
    + exfalso. assert (Hr : In r (recorded (attempts new1)))
        by (apply (recorded_in _ _ _ _ Hin); lia).
      rewrite Hnil in Hf1. simpl in Hf1. rewrite <- Hf1 in Hr. destruct Hr.
    + rewrite List.Forall_forall in Hp2. apply Hp2 in Hin. discriminate.
Qed.

(** C3: when the HTTPS pass ends with a non-empty [found_urls], no path is
    attempted over HTTP. *)
Theorem probe_domain_https_found_skips_http (d : pystr) (h : history) :
  fst (path_loop net clock urlparse_netloc Https d paths [] h) <> [] ->
  forall P res, ~ In (Http, P, res) (new_attempts net clock urlparse_netloc d h).
Proof.
  intros Hne P res Hin.
  destruct (path_loop net clock urlparse_netloc Https d paths [] h) as [f1 h1] eqn:E1. simpl in Hne.
  destruct (path_loop_spec _ _ _ _ _ _ _ E1) as [new1 [-> [_ [Hp1 _]]]].
  destruct (probe_domain_cases d h f1 (h ++ new1) E1) as [[_ E]|[Hnil _]];
    [|contradiction].
  rewrite (new_attempts_app d h new1 f1 E) in Hin.
  rewrite List.Forall_forall in Hp1. apply Hp1 in Hin. discriminate.
Qed.

(** C5: a GET that fails with any exception other than a TLS error makes
    [check_url] return [None] (the absent value); nothing is raised. *)
Theorem check_url_other_error_absent (u : pystr) (h : history) :
  net h u = GetOtherError ->
  check_url net clock urlparse_netloc u h = (None, h ++ [Get u]).
Proof.
  intros Hn. unfold check_url.
  cbn [check_url_fuel]. rewrite Hn. reflexivity.
Qed.

End NetworkFacts.

(* ------------------------------------------------------------------ *)
(** ** Instances of the probe_domain and check_url claims *)

Lemma probe_domain_https_200_stops_witness :
  new_attempts net_all_ok demo_clock demo_netloc demo_host [] =
    [] ++ (Https, s2z "/", Some demo_result) :: [] /\
  status_code demo_result = 200 /\
  ([] : list (protocol * pystr * option probe_result)) = [].
Proof.
  split; [vm_compute; reflexivity|]. split; [reflexivity|].
  apply (probe_domain_https_200_stops net_all_ok demo_clock demo_netloc demo_host []
           [] [] (s2z "/") demo_result); [vm_compute; reflexivity|reflexivity].
Defined.

Lemma probe_domain_https_found_skips_http_witness :
  fst (path_loop net_all_ok demo_clock demo_netloc Https demo_host paths [] []) <> [] /\
  ~ In (Http, s2z "/", Some demo_result)
      (new_attempts net_all_ok demo_clock demo_netloc demo_host []).
Proof.
  split; [vm_compute; discriminate|].
  apply (probe_domain_https_found_skips_http net_all_ok demo_clock demo_netloc
           demo_host []).
  vm_compute. discriminate.
Defined.

Lemma check_url_other_error_absent_witness :
  net_down [] (s2z "https://a.example.cu/") = GetOtherError /\
  check_url net_down demo_clock demo_netloc (s2z "https://a.example.cu/") [] =
    (None, [Get (s2z "https://a.example.cu/")]).
Proof.
  split; [reflexivity|].
  apply (check_url_other_error_absent net_down demo_clock demo_netloc
           (s2z "https://a.example.cu/") []).
  reflexivity.
Defined.

(** C4 (defect): on a TLS failure the retried URL is built with
    [url.replace('https://', 'http://')], which rewrites every occurrence of
    ["https://"], not only the scheme: for ["https://a.cu/https://b.cu/"]
    the second request goes to ["http://a.cu/http://b.cu/"], whose path
    differs from the original one, and the returned result carries that
    URL; the same host and path with scheme http would be
    ["http://a.cu/https://b.cu/"]. *)
Theorem check_url_tls_retry_rewrites_path :
  let u := s2z "https://a.cu/https://b.cu/" in
  let res := check_url net_tls_broken demo_clock demo_netloc u [] in
  snd res = [Get u; Get (s2z "http://a.cu/http://b.cu/")] /\
  option_map url (fst res) = Some (s2z "http://a.cu/http://b.cu/") /\
  s2z "http://a.cu/http://b.cu/" <> s2z "http://" ++ drop 8 u.
Proof. vm_compute. split; [reflexivity|]. split; [reflexivity|]. discriminate. Qed.

(* ------------------------------------------------------------------ *)
(** * Properties of probe_all_domains *)

Lemma collect_spec (domains : list pystr) outcome (order : list nat) discovered errors :
  Forall (fun i => (i < length domains)%nat) order ->
  collect (future_to_domain domains) outcome order discovered errors =
    Some (discovered ++ flat_map (fun i => contribution (outcome i)) order,
          errors ++ flat_map (error_entry domains outcome) order).
Proof.
  intros Hall. revert discovered errors.
  induction Hall as [|i order Hi _ IH]; intros discovered errors.
  - simpl. rewrite !app_nil_r. reflexivity.
  - cbn [collect flat_map]. unfold future_to_domain at 1.
    rewrite lookup_map_seq_0.
    destruct (lookup_lt_is_Some_2 domains i Hi) as [d Hd]. rewrite Hd.
    unfold error_entry at 1. rewrite Hd.
    destruct (outcome i) as [rs|m]; rewrite IH.
    + destruct rs as [|r rs]; simpl; [reflexivity|].
      rewrite <- !app_assoc. reflexivity.
    + simpl. rewrite <- !app_assoc. reflexivity.
Qed.

(** C6: [probe_all_domains] submits one future per element of [domains]
    (future [i] for [domains[i]]); whatever order the futures complete in,
    no exception escapes the loop, [self.discovered_urls] gains exactly the
    results of the futures that returned, and every future that raised adds
    no result and has its domain reported. *)
Theorem probe_all_domains_isolates_failures (outcome : nat -> task_outcome)
  (order : list nat) (discovered : list probe_result) (domains : list pystr) :
  Permutation order (seq 0 (length domains)) ->
  (forall i, future_to_domain domains !! i = domains !! i) /\
  exists discovered' errors,
    probe_all_domains outcome order discovered domains = Some (discovered', errors) /\
    Permutation discovered'
      (discovered ++ flat_map (fun i => contribution (outcome i)) (seq 0 (length domains))) /\
    Permutation errors (flat_map (error_entry domains outcome) (seq 0 (length domains))).
Proof.
  intros Hperm. split; [intros i; apply lookup_map_seq_0|].
  assert (Hall : Forall (fun i => (i < length domains)%nat) order).
  { apply List.Forall_forall. intros i Hi.
    apply (Permutation_in _ Hperm), in_seq in Hi. lia. }
  unfold probe_all_domains. rewrite (collect_spec _ _ _ _ _ Hall).
  eexists _, _. split; [reflexivity|]. split.
  - apply Permutation_app_head. apply Permutation_flat_map, Hperm.
  - apply Permutation_flat_map, Hperm.
Qed.

Lemma probe_all_domains_isolates_failures_witness :
  Permutation [1%nat; 0%nat] (seq 0 (length [demo_host; s2z "b.example.cu"])) /\
  ((forall i, future_to_domain [demo_host; s2z "b.example.cu"] !! i =
              [demo_host; s2z "b.example.cu"] !! i) /\
   exists discovered' errors,
     probe_all_domains
       (fun i => match i with O => Returned [demo_result] | _ => Raised (s2z "boom") end)
       [1%nat; 0%nat] [] [demo_host; s2z "b.example.cu"] = Some (discovered', errors) /\
     Permutation discovered'
       ([] ++ flat_map (fun i => contribution
              (match i with O => Returned [demo_result] | _ => Raised (s2z "boom") end))
            (seq 0 (length [demo_host; s2z "b.example.cu"]))) /\
     Permutation errors
       (flat_map (error_entry [demo_host; s2z "b.example.cu"]
                    (fun i => match i with O => Returned [demo_result]
                              | _ => Raised (s2z "boom") end))
          (seq 0 (length [demo_host; s2z "b.example.cu"])))).
Proof.
  split; [simpl; apply perm_swap|].
  apply (probe_all_domains_isolates_failures
           (fun i => match i with O => Returned [demo_result] | _ => Raised (s2z "boom") end)
           [1%nat; 0%nat] [] [demo_host; s2z "b.example.cu"]).
  simpl. apply perm_swap.
Defined.

(* ------------------------------------------------------------------ *)
(** * Properties of generate_summary_report *)

Lemma bump_lookup {K} `{Countable K} (k k' : K) (m : gmap K nat) :
  bump k m !! k' = if decide (k = k') then Some (S (default 0%nat (m !! k))) else m !! k'.
Proof.
  unfold bump. destruct (m !! k) as [n|] eqn:E.
  - rewrite lookup_insert, E. reflexivity.
  - rewrite !lookup_insert. destruct (decide (k = k')) as [<-|Hne].
    + rewrite decide_True by reflexivity. reflexivity.
    + reflexivity.
Qed.

Lemma fold_bump_lookup {K} `{Countable K} (f : probe_result -> K) rs (m : gmap K nat) k :
  fold_left (fun m r => bump (f r) m) rs m !! k =
    match m !! k with
    | Some n => Some (n + count_by f k rs)%nat
    | None => count_entry (count_by f k rs)
    end.
Proof.
  revert m. induction rs as [|r rs IH]; intros m; simpl.
  - destruct (m !! k) as [n|]; [rewrite Nat.add_0_r|]; reflexivity.
  - rewrite IH, bump_lookup. unfold count_by. simpl.
    destruct (decide (f r = k)) as [Hk|Hk].
    + rewrite bool_decide_true by exact Hk. rewrite Hk. simpl.
      destruct (m !! k) as [n|]; simpl; [f_equal; lia|reflexivity].
    + rewrite bool_decide_false by exact Hk. reflexivity.
Qed.

Lemma summary_loop_fold rs dd ss :
  summary_loop rs dd ss =
    (fold_left (fun m r => bump (domain r) m) rs dd,
     fold_left (fun m r => bump (status_code r) m) rs ss).
Proof.
  revert dd ss. induction rs as [|r rs IH]; intros dd ss; [reflexivity|]. apply IH.
Qed.

Lemma check_url_last_get net clock urlparse_netloc (u : pystr) (h : history) r h' :
  check_url net clock urlparse_netloc u h = (Some r, h') ->
  exists h0 resp, h' = h0 ++ [Get (url r)] /\ net h0 (url r) = GetOk resp /\
    final_url r = resp_url resp /\ urlparse_netloc (final_url r) = Some (domain r).
Proof.
  unfold check_url.
  assert (Hgen : forall n u h,
             check_url_fuel net clock urlparse_netloc n u h = Some (Some r, h') ->
             exists h0 resp, h' = h0 ++ [Get (url r)] /\ net h0 (url r) = GetOk resp /\
               final_url r = resp_url resp /\ urlparse_netloc (final_url r) = Some (domain r)).
  { induction n as [|n IH]; intros u0 h0 Hc; [discriminate|].
    cbn [check_url_fuel] in Hc. destruct (net h0 u0) as [resp| |] eqn:En.
    - injection Hc as Hb <-. unfold build_result in Hb.
      destruct (urlparse_netloc (resp_url resp)) eqn:E; [|discriminate].
      injection Hb as <-. exists h0, resp. cbn [url final_url domain].
      split; [reflexivity|]. split; [exact En|]. split; [reflexivity|exact E].
    - destruct (startswith u0 (s2z "https://")); [exact (IH _ _ Hc)|discriminate].
    - discriminate. }
  destruct (check_url_fuel net clock urlparse_netloc 2 u h) as [[res h0]|] eqn:E;
    intros Hc; [|discriminate].
  injection Hc as -> ->. exact (Hgen _ _ _ E).
Qed.

(** C7 (as the code does it): the resolved host of a result of
    [check_url] is its [domain] field, the network location of
    [response.url] (the post-redirect URL answered by the last GET of the
    call, kept as [final_url]), not the host the URL was built from; for
    a non-empty [self.discovered_urls], [generate_summary_report] counts
    the results per [domain] and per status code; for the empty list it
    returns early and builds no mapping. *)
Theorem generate_summary_report_counts :
  (forall net clock urlparse_netloc u h r h',
     check_url net clock urlparse_netloc u h = (Some r, h') ->
     exists h0 resp, h' = h0 ++ [Get (url r)] /\ net h0 (url r) = GetOk resp /\
       final_url r = resp_url resp /\ urlparse_netloc (final_url r) = Some (domain r)) /\
  generate_summary_report [] = None /\
  (forall rs, rs <> [] ->
     exists host_counts status_counts,
       generate_summary_report rs = Some (host_counts, status_counts) /\
       (forall k, host_counts !! k = count_entry (count_by domain k rs)) /\
       (forall c, status_counts !! c = count_entry (count_by status_code c rs))).
Proof.
  split; [exact check_url_last_get|]. split; [reflexivity|].
  intros rs Hne. unfold generate_summary_report.
  destruct rs as [|r rs']; [contradiction|]. cbn [nonempty].
  rewrite summary_loop_fold. eexists _, _. split; [reflexivity|]. split.
  - intros k. rewrite fold_bump_lookup, lookup_empty. reflexivity.
  - intros c. rewrite fold_bump_lookup, lookup_empty. reflexivity.
Qed.

(** C7 as stated fails on the empty collection: the report is not built,
    rather than built from two empty mappings. *)
Lemma generate_summary_report_empty_no_mappings :
  generate_summary_report [] = None /\ generate_summary_report [] <> Some (∅, ∅).
Proof. split; [reflexivity|discriminate]. Qed.

(* ------------------------------------------------------------------ *)
(** * extract_title *)

(** C8 (defect): [extract_title] finds the tags in [html.lower()] but
    slices [html] with those indices.  [str.lower] maps U+0130 to two code
    points, so every index after it is shifted by one: for
    ["İ<title>abc</title>"] the title text is ["abc"] (indices 8 to 11
    of [html]) but [extract_title] returns ["bc<"]. *)
Theorem extract_title_shifted_by_lowercase_expansion :
  let html := 304 :: s2z "<title>abc</title>" in
  extract_title html = s2z "bc<" /\
  slice html 1 8 = s2z "<title>" /\
  slice html 8 11 = s2z "abc" /\
  slice html 11 19 = s2z "</title>".
Proof. vm_compute. repeat split. Qed.

(* ------------------------------------------------------------------ *)
(** * clean_domain *)

Example extract_title_ascii :
  extract_title (s2z "<html><TITLE>  Gob </Title></html>") = s2z "Gob".
Proof. reflexivity. Qed.

Example clean_domain_ex :
  clean_domain (s2z " https://www.Minrex.gob.cu:443/es?x#y ") = s2z "minrex.gob.cu".
Proof. reflexivity. Qed.

Ltac zdecide :=
  repeat match goal with
         | |- context [?a <=? ?b] =>
             first [ rewrite (proj2 (Z.leb_le a b)) by lia
                   | rewrite (proj2 (Z.leb_gt a b)) by lia ]
         | |- context [?a =? ?b] =>
             first [ rewrite (proj2 (Z.eqb_eq a b)) by lia
                   | rewrite (proj2 (Z.eqb_neq a b)) by lia ]
         end; cbn [andb orb negb].

Lemma lower_lookup_in (c v : Z) (t : list (Z * Z)) :
  lower_lookup c t = Some v -> In (c, v) t.
Proof.
  induction t as [|[k w] t IH]; simpl; [discriminate|].
  destruct (c <? k); [discriminate|]. destruct (c =? k) eqn:E.
  - apply Z.eqb_eq in E as ->. intros [= ->]. now left.
  - intros H. right. exact (IH H).
Qed.

Lemma lower_lookup_none (c : Z) (t : list (Z * Z)) :
  (forall k v, In (k, v) t -> k <> c) -> lower_lookup c t = None.
Proof.
  intros H. destruct (lower_lookup c t) as [v|] eqn:E; [|reflexivity].
  exfalso. exact (H c v (lower_lookup_in _ _ _ E) eq_refl).
Qed.

(** Checked on the table: every lower-case form is at least U+0061, is not
    U+0130, and is its own lower-case form. *)
Lemma lower_table_images :
  forallb (fun '(k, v) => (97 <=? v) && negb (v =? 304) &&
             match lower_lookup v lower_table with None => true | Some _ => false end)
    lower_table = true.
Proof. vm_compute. reflexivity. Qed.

(** Checked on the table: no white-space code point and not U+0130 is a key. *)
Lemma lower_table_keys :
  forallb (fun '(k, _) => negb (is_space k) && negb (k =? 304)) lower_table = true.
Proof. vm_compute. reflexivity. Qed.

Lemma lower_table_image (c v : Z) :
  In (c, v) lower_table -> 97 <= v /\ lower_char v = [v].
Proof.
  intros H. pose proof lower_table_images as Hall. rewrite forallb_forall in Hall.
  specialize (Hall _ H). cbn beta iota in Hall.
  destruct (lower_lookup v lower_table) eqn:E; [rewrite andb_false_r in Hall; discriminate|].
  rewrite andb_true_r in Hall. apply andb_prop in Hall as [H1 H2].
  apply negb_true_iff in H2. apply Z.leb_le in H1.
  split; [exact H1|]. unfold lower_char. rewrite H2, E. reflexivity.
Qed.

(** The three shapes of [lower_char c]. *)
Lemma lower_char_cases (c : Z) :
  lower_char c = [c] \/ lower_char c = [105; 775] \/
  exists v, lower_char c = [v] /\ In (c, v) lower_table.
Proof.
  unfold lower_char. destruct (c =? 304); [right; left; reflexivity|].
  destruct (lower_lookup c lower_table) as [v|] eqn:E.
  - right; right. exists v. split; [reflexivity|]. apply lower_lookup_in, E.
  - left. reflexivity.
Qed.

Lemma lower_char_in (c x : Z) : In x (lower_char c) -> x = c \/ 97 <= x.
Proof.
  intros H. destruct (lower_char_cases c) as [E|[E|[v [E Hv]]]]; rewrite E in H; simpl in H.
  - destruct H as [H|[]]. auto.
  - right. destruct H as [<-|[<-|[]]]; lia.
  - destruct H as [<-|[]]. right. apply (lower_table_image c v Hv).
Qed.

(** A text made of code points that [str.lower] keeps whatever their
    context is its own lower-case form. *)
Lemma lower_aux_fixed (t before : pystr) :
  (forall x, In x t -> x <> 931 /\ lower_char x = [x]) -> lower_aux before t = t.
Proof.
  revert before. induction t as [|x t IH]; intros before H; [reflexivity|].
  cbn [lower_aux]. destruct (H x (or_introl eq_refl)) as [H1 H2].
  unfold lower_at. rewrite (proj2 (Z.eqb_neq x 931) H1), H2. cbn [app].
  rewrite IH; [reflexivity|]. intros y Hy. apply H. right. exact Hy.
Qed.

(** Every code point of a lower-cased text is kept by [str.lower] in every
    context, and is a code point of the input or at least U+0061. *)
Lemma lower_aux_out (s before : pystr) (x : Z) :
  In x (lower_aux before s) -> (x <> 931 /\ lower_char x = [x]) /\ (In x s \/ 97 <= x).
Proof.
  revert before. induction s as [|c s IH]; intros before H; [destruct H|].
  cbn [lower_aux] in H. apply in_app_or in H as [H|H].
  2: { destruct (IH _ H) as [Hf [Hs|Hs]]; split; auto. left. right. exact Hs. }
  unfold lower_at in H. destruct (Z.eqb_spec c 931) as [->|Hne].
  - destruct (final_sigma before s); destruct H as [<-|[]];
      (split; [split; [lia|reflexivity]|right; lia]).
  - destruct (lower_char_cases c) as [E|[E|[v [E Hv]]]]; rewrite E in H.
    + destruct H as [<-|[]]. split; [split; [exact Hne|exact E]|left; left; reflexivity].
    + destruct H as [<-|[<-|[]]]; (split; [split; [lia|reflexivity]|right; lia]).
    + destruct H as [<-|[]]. destruct (lower_table_image c v Hv) as [H97 Hx].
      split; [|right; exact H97]. split; [|exact Hx].
      intros ->. vm_compute in Hx. discriminate Hx.
Qed.

Lemma py_lower_idem (s : pystr) : py_lower (py_lower s) = py_lower s.
Proof.
  unfold py_lower at 1. apply lower_aux_fixed. intros x Hx.
  exact (proj1 (lower_aux_out s [] x Hx)).
Qed.

Lemma py_lower_in (s : pystr) (x : Z) : In x (py_lower s) -> In x s \/ 97 <= x.
Proof. intros H. exact (proj2 (lower_aux_out s [] x H)). Qed.

(** [str.lower] on a few inputs, as CPython 3.11 computes it:
    'ΣA.cu' gives 'σa.cu', 'ΑΣ' gives 'ας' (final sigma), 'ΑΣ.cu' gives
    'ασ.cu' ('.' is case-ignorable and 'c' is cased), and clean_domain
    maps 'ΣA.cu' and 'σa.cu' to the same host. *)
Lemma py_lower_examples :
  (py_lower [931; 65; 46; 99; 117] = [963; 97; 46; 99; 117]) /\
  (py_lower [913; 931] = [945; 962]) /\
  (py_lower [913; 931; 46; 99; 117] = [945; 963; 46; 99; 117]) /\
  (clean_domain [931; 65; 46; 99; 117] = clean_domain [963; 97; 46; 99; 117]).
Proof. vm_compute. repeat split. Qed.

Lemma lower_aux_keeps (s before : pystr) (c : Z) :
  In c s -> c <> 931 -> lower_char c = [c] -> In c (lower_aux before s).
Proof.
  revert before. induction s as [|y s IH]; intros before Hin Hne Hl; [destruct Hin|].
  cbn [lower_aux]. apply in_or_app. destruct Hin as [->|Hin].
  - left. unfold lower_at. rewrite (proj2 (Z.eqb_neq c 931) Hne), Hl. left. reflexivity.
  - right. apply IH; assumption.
Qed.

Lemma split0_in (sep : Z) (s : pystr) (x : Z) : In x (split0 sep s) -> x <> sep /\ In x s.
Proof.
  induction s as [|c s IH]; simpl; [tauto|].
  destruct (Z.eqb_spec c sep) as [_|Hne]; simpl; [tauto|].
  intros [<-|H]; [auto|]. destruct (IH H). auto.
Qed.

Lemma split0_notin (sep : Z) (s : pystr) : ~ In sep s -> split0 sep s = s.
Proof.
  induction s as [|c s IH]; intros Hn; [reflexivity|]. simpl.
  destruct (Z.eqb_spec c sep) as [->|_]; [exfalso; apply Hn; left; reflexivity|].
  rewrite IH; [reflexivity|]. intros H. apply Hn. right. exact H.
Qed.

Lemma mem_char_false (c : Z) (s : pystr) : mem_char c s = false <-> ~ In c s.
Proof.
  unfold mem_char. split.
  - intros H Hin. assert (existsb (Z.eqb c) s = true) as Ht
      by (apply existsb_exists; exists c; split; [exact Hin|apply Z.eqb_refl]).
    congruence.
  - intros Hn. apply not_true_is_false. intros Ht.
    apply existsb_exists in Ht as [x [Hx Heq]]. apply Z.eqb_eq in Heq. subst. contradiction.
Qed.

Lemma startswith_in (s p : pystr) (c : Z) : startswith s p = true -> In c p -> In c s.
Proof.
  revert s. induction p as [|a p IH]; intros s Hs Hc; [destruct Hc|].
  destruct s as [|b s]; [discriminate|]. simpl in Hs. apply andb_prop in Hs as [Hab Hs].
  apply Z.eqb_eq in Hab. subst b. destruct Hc as [<-|Hc]; [left; reflexivity|].
  right. exact (IH s Hs Hc).
Qed.

(** Every output of [clean_domain] is lower-case and contains none of
    '/', '?', '#', ':'. *)
Lemma clean_domain_shape (s : pystr) :
  py_lower (clean_domain s) = clean_domain s /\ no_url_delims (clean_domain s).
Proof.
  unfold clean_domain. split; [apply py_lower_idem|].
  apply List.Forall_forall. intros x Hx. apply py_lower_in in Hx as [Hx|Hx]; [|lia].
  destruct (mem_char 58 _) eqn:Hm.
  - apply split0_in in Hx as [H58 Hx].
    apply split0_in in Hx as [H35 Hx]. apply split0_in in Hx as [H63 Hx].
    apply split0_in in Hx as [H47 _]. auto.
  - apply mem_char_false in Hm.
    assert (x <> 58) by (intros ->; contradiction).
    apply split0_in in Hx as [H35 Hx]. apply split0_in in Hx as [H63 Hx].
    apply split0_in in Hx as [H47 _]. auto.
Qed.

Lemma clean_domain_fixed (t : pystr) :
  py_lower t = t -> no_url_delims t ->
  startswith t (s2z "www.") = false -> strip t = t ->
  clean_domain t = t.
Proof.
  intros Hl Hd Hw Hs. unfold no_url_delims in Hd. rewrite List.Forall_forall in Hd.
  assert (H58 : ~ In 58 t) by (intros Hin; apply Hd in Hin; lia).
  assert (Hsch : forall p, In 58 p -> startswith t p = false).
  { intros p Hp. apply not_true_is_false. intros Ht. exact (H58 (startswith_in _ _ _ Ht Hp)). }
  unfold clean_domain. cbv zeta. rewrite Hs.
  rewrite (Hsch (s2z "http://")) by (simpl; tauto).
  rewrite (Hsch (s2z "https://")) by (simpl; tauto).
  rewrite Hw.
  rewrite (split0_notin 47 t), (split0_notin 63 t), (split0_notin 35 t)
    by (intros Hin; apply Hd in Hin; lia).
  assert (Hm : mem_char 58 t = false) by (apply mem_char_false; exact H58).
  rewrite Hm. exact Hl.
Qed.

(** C10 (as the code does it): every output of [clean_domain] is lower-case
    and free of '/', '?', '#' and ':'; and [clean_domain] leaves its output
    unchanged whenever that output does not start with "www." and has no
    leading or trailing whitespace. *)
Theorem clean_domain_idempotent_without_www :
  (forall s, py_lower (clean_domain s) = clean_domain s /\ no_url_delims (clean_domain s)) /\
  (forall s, startswith (clean_domain s) (s2z "www.") = false ->
             strip (clean_domain s) = clean_domain s ->
             clean_domain (clean_domain s) = clean_domain s).
Proof.
  split; [exact clean_domain_shape|].
  intros s Hw Hs. destruct (clean_domain_shape s) as [Hl Hd].
  exact (clean_domain_fixed _ Hl Hd Hw Hs).
Qed.

(** C10 as stated fails: one "www." is removed per call. *)
Lemma clean_domain_not_idempotent :
  clean_domain (s2z "www.www.a.cu") = s2z "www.a.cu" /\
  clean_domain (clean_domain (s2z "www.www.a.cu")) = s2z "a.cu" /\
  s2z "a.cu" <> s2z "www.a.cu".
Proof. split; [reflexivity|]. split; [reflexivity|discriminate]. Qed.

(* ------------------------------------------------------------------ *)
(** * load_domains *)

Lemma pystr_eqb_eq (a b : pystr) : pystr_eqb a b = true <-> a = b.
Proof.
  revert b. induction a as [|x a IH]; intros [|y b]; simpl; try (split; congruence).
  rewrite andb_true_iff, Z.eqb_eq, IH. split; [intros [-> ->]; reflexivity|].
  intros H; injection H as -> ->. auto.
Qed.

Lemma mem_str_false (x : pystr) (xs : list pystr) : mem_str x xs = false -> ~ In x xs.
Proof.
  unfold mem_str. intros H Hin.
  assert (existsb (pystr_eqb x) xs = true) as Ht
    by (apply existsb_exists; exists x; split; [exact Hin|apply pystr_eqb_eq; reflexivity]).
  congruence.
Qed.

Lemma domains_ok_add (ds : list pystr) (s : pystr) :
  domains_ok ds -> clean_domain s <> [] -> mem_str (clean_domain s) ds = false ->
  domains_ok (ds ++ [clean_domain s]).
Proof.
  intros [Hnd Hf] Hne Hm. apply mem_str_false in Hm. split.
  - apply NoDup_app. split; [exact Hnd|]. split; [|apply NoDup_singleton].
    intros x Hx Hx'. apply list_elem_of_singleton in Hx'. subst x.
    apply Hm. apply list_elem_of_In, Hx.
  - apply Forall_app. split; [exact Hf|]. repeat constructor; [exact Hne|]. exists s. reflexivity.
Qed.

Lemma nonempty_true {A} (l : list A) : nonempty l = true -> l <> [].
Proof. destruct l; [discriminate|congruence]. Qed.

Lemma mem_char_true_ne (c : Z) (s : pystr) : mem_char c s = true -> s <> [].
Proof. destruct s; [discriminate|congruence]. Qed.

Section LoadingFacts.

Variable repr_list : list pystr -> pystr.

Lemma scan_any_ok (r : row) (ds : list pystr) :
  domains_ok ds -> domains_ok (scan_any repr_list r ds).
Proof.
  revert ds. induction r as [|[k v] r IH]; intros ds Hok; [exact Hok|]. simpl.
  destruct (truthy v && nonempty (strip (py_str repr_list v))); [|apply IH, Hok].
  destruct (mem_char 46 (clean_domain (strip (py_str repr_list v))) &&
            negb (mem_char 32 (clean_domain (strip (py_str repr_list v))))) eqn:Hd;
    [|apply IH, Hok].
  apply andb_prop in Hd as [Hdot _].
  destruct (mem_str _ ds) eqn:Hm; [exact Hok|].
  apply domains_ok_add; [exact Hok|exact (mem_char_true_ne _ _ Hdot)|exact Hm].
Qed.

Lemma process_row_ok (ds : list pystr) (r : row) :
  domains_ok ds -> domains_ok (process_row repr_list ds r).
Proof.
  intros Hok. unfold process_row.
  destruct (find_named repr_list domain_columns r) as [d|]; [|apply scan_any_ok, Hok].
  destruct (nonempty (clean_domain d) && negb (mem_str (clean_domain d) ds)) eqn:Hc;
    [|exact Hok].
  apply andb_prop in Hc as [Hne Hm]. apply negb_true_iff in Hm.
  apply domains_ok_add; [exact Hok|exact (nonempty_true _ Hne)|exact Hm].
Qed.

Lemma fold_process_row_ok (rows : list row) (ds : list pystr) :
  domains_ok ds -> domains_ok (fold_left (process_row repr_list) rows ds).
Proof.
  revert ds. induction rows as [|r rows IH]; intros ds Hok; [exact Hok|].
  simpl. apply IH, process_row_ok, Hok.
Qed.

(** C9 (as the code does it): the hosts returned by [load_domains] are
    pairwise distinct, and each is a non-empty output of [clean_domain],
    hence lower-case and free of '/', '?', '#' and ':'. *)
Theorem load_domains_hosts_invariant (valid : bool)
  (reader : option (list (option pystr) * list row)) (save_ok : bool) :
  NoDup (load_domains repr_list valid reader save_ok) /\
  Forall (fun d => d <> [] /\ (exists s, d = clean_domain s) /\
                   py_lower d = d /\ no_url_delims d)
    (load_domains repr_list valid reader save_ok).
Proof.
  assert (Hok : domains_ok (load_domains repr_list valid reader save_ok)).
  { unfold load_domains.
    destruct valid; [|split; [constructor|constructor]].
    destruct reader as [[fieldnames rows]|]; [|split; [constructor|constructor]].
    destruct (negb (nonempty fieldnames)); [split; [constructor|constructor]|].
    destruct save_ok; [|split; [constructor|constructor]].
    apply fold_process_row_ok. split; constructor. }
  destruct Hok as [Hnd Hf]. split; [exact Hnd|].
  eapply Forall_impl; [exact Hf|]. intros d [Hne [s ->]].
  destruct (clean_domain_shape s) as [Hl Hd]. eauto.
Qed.

End LoadingFacts.

(** C9 as stated fails: a value of a recognised domain column is kept
    without a '.', and a doubled "www." prefix keeps one "www.". *)
Lemma load_domains_keeps_dotless_and_www :
  load_domains (fun _ => [])%list true
    (Some ([Some (s2z "Domain")],
           [[(Some (s2z "Domain"), CStr (s2z "localhost"))];
            [(Some (s2z "Domain"), CStr (s2z "www.www.a.cu"))]]))
    true = [s2z "localhost"; s2z "www.a.cu"] /\
  mem_char 46 (s2z "localhost") = false /\
  startswith (s2z "www.a.cu") (s2z "www.") = true.
Proof. split; [vm_compute; reflexivity|]. split; reflexivity. Qed.

(* ------------------------------------------------------------------ *)
(** * Input checks and prompts of cuban_URL.py *)

(** The delimiter guess reads only [f.read(1024)]: ',' when it occurs
    there, else ';' when it occurs, else tab when it occurs, else ','
    (the default); text after the first 1024 characters is never looked
    at. *)
Theorem detect_delimiter_spec (contents rest : pystr) :
  let sample := take 1024 contents in
  (In 44 sample -> detect_delimiter contents = 44) /\
  (~ In 44 sample -> In 59 sample -> detect_delimiter contents = 59) /\
  (~ In 44 sample -> ~ In 59 sample -> In 9 sample -> detect_delimiter contents = 9) /\
  (~ In 44 sample -> ~ In 59 sample -> ~ In 9 sample -> detect_delimiter contents = 44) /\
  ((1024 <= length contents)%nat -> detect_delimiter (contents ++ rest) = detect_delimiter contents).
Proof.
  intros sample. unfold detect_delimiter. fold sample.
  assert (Ht : forall c, In c sample -> mem_char c sample = true).
  { intros c Hc. destruct (mem_char c sample) eqn:E; [reflexivity|].
    apply mem_char_false in E. contradiction. }
  assert (Hf : forall c, ~ In c sample -> mem_char c sample = false).
  { intros c Hc. apply mem_char_false, Hc. }
  unfold first_delimiter, delimiters.
  split; [|split; [|split; [|split]]].
  - intros H. rewrite (Ht _ H). reflexivity.
  - intros H1 H2. rewrite (Hf _ H1), (Ht _ H2). reflexivity.
  - intros H1 H2 H3. rewrite (Hf _ H1), (Hf _ H2), (Ht _ H3). reflexivity.
  - intros H1 H2 H3. rewrite (Hf _ H1), (Hf _ H2), (Hf _ H3). reflexivity.
  - intros Hlen. unfold sample. rewrite take_app_le by lia. reflexivity.
Qed.

Lemma lstrip_nil (s : pystr) : lstrip s = [] <-> Forall (fun c => is_space c = true) s.
Proof.
  induction s as [|c s IH]; simpl; [split; auto|].
  destruct (is_space c) eqn:E.
  - rewrite IH. split; [intros H; constructor; auto|intros H; inversion H; auto].
  - split; [discriminate|intros H; inversion H; congruence].
Qed.

Lemma lstrip_head (s : pystr) :
  lstrip s = [] \/ exists c t, lstrip s = c :: t /\ is_space c = false.
Proof.
  induction s as [|c s IH]; simpl; [auto|].
  destruct (is_space c) eqn:E; [exact IH|right; eauto].
Qed.

Lemma strip_nil (s : pystr) : strip s = [] <-> Forall (fun c => is_space c = true) s.
Proof.
  unfold strip. split.
  - intros H. apply (f_equal (@rev Z)) in H. rewrite rev_involutive in H.
    apply lstrip_nil in H. apply Forall_rev in H. rewrite rev_involutive in H.
    destruct (lstrip_head s) as [Hs|[c [t [Hs Hc]]]].
    + apply lstrip_nil, Hs.
    + rewrite Hs in H. inversion H. congruence.
  - intros H. apply lstrip_nil in H. rewrite H. reflexivity.
Qed.

Lemma exists_not_space (l : pystr) :
  Exists (fun c => is_space c = false) l <-> ~ Forall (fun c => is_space c = true) l.
Proof.
  induction l as [|c l IH].
  - split; [intros H; inversion H|intros H; exfalso; apply H; constructor].
  - destruct (is_space c) eqn:E.
    + split.
      * intros H Hf. inversion H; [congruence|]. inversion Hf. apply IH; assumption.
      * intros H. apply Exists_cons_tl, IH. intros Hf. apply H. constructor; assumption.
    + split.
      * intros _ Hf. inversion Hf. congruence.
      * intros _. apply Exists_cons_hd, E.
Qed.

(** [validate_csv_file] accepts exactly the paths whose lower-cased form
    ends in ".csv" (so ".CSV" is accepted) naming a readable file with a
    non-whitespace character among its first 1024 characters: a file that
    starts with 1024 whitespace characters is rejected whatever follows. *)
Theorem validate_csv_file_spec (filepath : pystr) (f : file_state) :
  validate_csv_file filepath f = true <->
  endswith (py_lower filepath) (s2z ".csv") = true /\
  exists s, f = Contents s /\ Exists (fun c => is_space c = false) (take 1024 s).
Proof.
  unfold validate_csv_file.
  destruct (endswith (py_lower filepath) (s2z ".csv")); cbn [negb].
  2:{ split; [discriminate|intros [H _]; discriminate]. }
  destruct f as [| |s].
  - split; [discriminate|intros [_ [s [H _]]]; discriminate].
  - split; [discriminate|intros [_ [s [H _]]]; discriminate].
  - split.
    + intros H. split; [reflexivity|]. exists s. split; [reflexivity|].
      apply exists_not_space. rewrite <- strip_nil.
      intros He. rewrite He in H. discriminate.
    + intros [_ [s' [Hs Hn]]]. injection Hs as <-.
      apply exists_not_space in Hn. rewrite <- strip_nil in Hn.
      destruct (strip (take 1024 s)); [contradiction|reflexivity].
Qed.

(** [select_csv_file] returns only [csv_files[n - 1]] for the typed number
    [n] with [1 <= n <= len(csv_files)]: "0" and negative numbers are
    refused, not read as indices from the end; an empty line selects the
    first file. *)
Theorem select_csv_file_in_range (py_int : pystr -> option Z) :
  (forall csv_files line f,
     select_csv_file py_int csv_files line = Some f ->
     exists n, py_int (if nonempty (strip line) then strip line else s2z "1") = Some n /\
       1 <= n <= Z.of_nat (length csv_files) /\ csv_files !! Z.to_nat (n - 1) = Some f) /\
  (py_int (s2z "1") = Some 1 ->
   forall f rest line, strip line = [] -> select_csv_file py_int (f :: rest) line = Some f).
Proof.
  split.
  - intros csv_files line f. unfold select_csv_file.
    destruct (nonempty csv_files); cbn [negb]; [|discriminate].
    destruct (py_int _) as [n|]; [|discriminate].
    destruct ((0 <=? n - 1) && (n - 1 <? Z.of_nat (length csv_files))) eqn:E; [|discriminate].
    apply andb_prop in E as [E1 E2]. apply Z.leb_le in E1. apply Z.ltb_lt in E2.
    intros H. exists n. split; [reflexivity|]. split; [lia|exact H].
  - intros H1 f rest line Hl. unfold select_csv_file. rewrite Hl. cbn [nonempty negb].
    rewrite H1. simpl. reflexivity.
Qed.

Lemma is_space_lower (c : Z) : is_space c = true -> lower_char c = [c].
Proof.
  intros Hs. pose proof lower_table_keys as Hall. rewrite forallb_forall in Hall.
  unfold lower_char. rewrite lower_lookup_none.
  - destruct (c =? 304) eqn:E; [|reflexivity].
    apply Z.eqb_eq in E. subst c. vm_compute in Hs. discriminate Hs.
  - intros k v Hk ->. specialize (Hall _ Hk). cbn beta iota in Hall.
    rewrite Hs in Hall. discriminate Hall.
Qed.

(** The choices [run] makes after [load_domains]: it probes nothing, all
    the domains, or (more than ten domains and a "y"/"yes" to the test
    question) the first five.  The confirmation line is only lower-cased,
    not stripped, so an answer holding any whitespace (" y", "yes ")
    cancels the run. *)
Theorem run_domains_subset (domains : list pystr) (confirm test : pystr) :
  (forall ps, run_domains domains confirm test = Some ps ->
     ps <> [] /\ (ps = domains \/ ((10 < length domains)%nat /\ ps = take 5 domains))) /\
  ((exists c, In c confirm /\ is_space c = true) -> run_domains domains confirm test = None).
Proof.
  split.
  - intros ps. unfold run_domains.
    destruct domains as [|d ds]; cbn [nonempty negb]; [discriminate|].
    destruct (mem_str (py_lower confirm) yes_answers); cbn [negb]; [|discriminate].
    destruct (Nat.ltb 10 (length (d :: ds))) eqn:E.
    + apply Nat.ltb_lt in E.
      destruct (mem_str (py_lower (strip test)) yes_answers); intros [= <-].
      * split; [discriminate|right; auto].
      * split; [discriminate|left; reflexivity].
    + intros [= <-]. split; [discriminate|left; reflexivity].
  - intros [c [Hin Hs]].
    assert (Hl : In c (py_lower confirm)).
    { apply lower_aux_keeps; [exact Hin| |apply is_space_lower, Hs].
      intros ->. vm_compute in Hs. discriminate Hs. }
    assert (Hm : mem_str (py_lower confirm) yes_answers = false).
    { destruct (mem_str (py_lower confirm) yes_answers) eqn:E; [|reflexivity].
      unfold mem_str in E. apply existsb_exists in E as [y [Hy He]].
      apply pystr_eqb_eq in He. rewrite He in Hl.
      simpl in Hy. destruct Hy as [<-|[<-|[]]]; simpl in Hl;
        repeat destruct Hl as [<-|Hl]; try discriminate; contradiction. }
    unfold run_domains. rewrite Hm. destruct (nonempty domains); reflexivity.
Qed.

Section LoadingMore.

Variable repr_list : list pystr -> pystr.

Lemma scan_any_step (r : row) (ds : list pystr) :
  exists ext, scan_any repr_list r ds = ds ++ ext /\ (length ext <= 1)%nat.
Proof.
  induction r as [|[k v] r IH]; simpl.
  - exists []. rewrite app_nil_r. auto.
  - destruct (truthy v && nonempty (strip (py_str repr_list v))); [|exact IH].
    destruct (mem_char 46 _ && negb (mem_char 32 _)); [|exact IH].
    destruct (mem_str _ ds).
    + exists []. rewrite app_nil_r. auto.
    + eexists. split; [reflexivity|simpl; lia].
Qed.

Lemma process_row_step (ds : list pystr) (r : row) :
  exists ext, process_row repr_list ds r = ds ++ ext /\ (length ext <= 1)%nat.
Proof.
  unfold process_row. destruct (find_named repr_list domain_columns r).
  - destruct (nonempty _ && negb _).
    + eexists. split; [reflexivity|simpl; lia].
    + exists []. rewrite app_nil_r. auto.
  - apply scan_any_step.
Qed.

Lemma fold_process_row_step (rows : list row) (ds : list pystr) :
  exists ext, fold_left (process_row repr_list) rows ds = ds ++ ext /\
    (length ext <= length rows)%nat.
Proof.
  revert ds. induction rows as [|r rows IH]; intros ds; simpl.
  - exists []. rewrite app_nil_r. auto.
  - destruct (process_row_step ds r) as [e1 [-> H1]].
    destruct (IH (ds ++ e1)) as [e2 [-> H2]].
    exists (e1 ++ e2). rewrite app_assoc, length_app. split; [reflexivity|lia].
Qed.

(** Rows are handled in order and each adds at most one host: the hosts
    found in earlier rows stay, in place, ahead of those of later rows,
    and [load_domains] returns at most one host per data row. *)
Theorem load_domains_rows_in_order (rows1 rows2 : list row) :
  (exists ext,
     fold_left (process_row repr_list) (rows1 ++ rows2) [] =
       fold_left (process_row repr_list) rows1 [] ++ ext /\
     (length ext <= length rows2)%nat) /\
  (forall valid fieldnames save_ok,
     (length (load_domains repr_list valid (Some (fieldnames, rows1)) save_ok)
        <= length rows1)%nat).
Proof.
  split.
  - rewrite fold_left_app. apply fold_process_row_step.
  - intros valid fieldnames save_ok. unfold load_domains.
    destruct valid; cbn [negb]; [|simpl; lia].
    destruct (nonempty fieldnames); cbn [negb]; [|simpl; lia].
    destruct save_ok; [|simpl; lia].
    destruct (fold_process_row_step rows1 []) as [ext [-> H]]. simpl. exact H.
Qed.

End LoadingMore.

(* ------------------------------------------------------------------ *)
(** * Sorting *)

Lemma insert_by_perm {A} (before : A -> A -> bool) (x : A) (l : list A) :
  Permutation (insert_by before x l) (x :: l).
Proof.
  induction l as [|y l IH]; simpl; [reflexivity|].
  destruct (before y x); [|reflexivity].
  rewrite IH. apply perm_swap.
Qed.

Lemma sort_by_perm {A} (before : A -> A -> bool) (l : list A) :
  Permutation (sort_by before l) l.
Proof.
  unfold sort_by.
  assert (H : forall acc, Permutation (fold_left (fun acc x => insert_by before x acc) l acc)
                                      (l ++ acc)).
  { induction l as [|x l IH]; intros acc; simpl; [reflexivity|].
    rewrite IH, insert_by_perm. symmetry. apply Permutation_middle. }
  rewrite H, app_nil_r. reflexivity.
Qed.

Section SortedInsert.

Context {A : Type} (before : A -> A -> bool).
Hypothesis before_total : forall x y, before x y = false -> before y x = true.

Lemma insert_by_sorted (x : A) (l : list A) :
  Sorted (fun a c => before a c = true) l ->
  Sorted (fun a c => before a c = true) (insert_by before x l).
Proof.
  induction l as [|y l IH]; intros Hs; simpl.
  - repeat constructor.
  - destruct (before y x) eqn:E.
    + apply Sorted_inv in Hs as [Hl Hh]. constructor; [apply IH, Hl|].
      destruct l as [|z l]; simpl; [constructor; exact E|].
      destruct (before z x); constructor; [|exact E].
      inversion Hh; assumption.
    + constructor; [exact Hs|constructor; apply before_total, E].
Qed.

Lemma sort_by_sorted (l : list A) : Sorted (fun a c => before a c = true) (sort_by before l).
Proof.
  unfold sort_by.
  assert (H : forall acc, Sorted (fun a c => before a c = true) acc ->
              Sorted (fun a c => before a c = true)
                (fold_left (fun acc x => insert_by before x acc) l acc)).
  { induction l as [|x l IH]; intros acc Hacc; simpl; [exact Hacc|].
    apply IH, insert_by_sorted, Hacc. }
  apply H. constructor.
Qed.

End SortedInsert.

Lemma Sorted_mono {A} (R R' : A -> A -> Prop) (l : list A) :
  (forall a c, R a c -> R' a c) -> Sorted R l -> Sorted R' l.
Proof.
  intros HR Hs. induction Hs as [|a l Hs IH Hd]; constructor; [exact IH|].
  destruct Hd; constructor. apply HR. assumption.
Qed.

(** In a sorted list with pairwise distinct keys, neighbours have distinct
    keys. *)
Lemma Sorted_distinct_keys {A B} (g : A -> B) (R R' : A -> A -> Prop) (l : list A) :
  (forall a c, R a c -> g a <> g c -> R' a c) -> NoDup (map g l) -> Sorted R l -> Sorted R' l.
Proof.
  intros HR Hnd Hs. induction Hs as [|a l Hs IH Hd]; constructor.
  - apply IH. simpl in Hnd. inversion Hnd; assumption.
  - destruct Hd as [|c l' Hac]; constructor. apply HR; [exact Hac|].
    simpl in Hnd. inversion Hnd as [|? ? Hnin _]; subst.
    intros Heq. apply Hnin. rewrite Heq. now left.
Qed.

Lemma str_ltb_irrefl (s : pystr) : str_ltb s s = false.
Proof.
  induction s as [|a s IH]; simpl; [reflexivity|]. rewrite Z.ltb_irrefl, Z.eqb_refl, IH.
  reflexivity.
Qed.

Lemma str_ltb_asym (s t : pystr) : str_ltb s t = true -> str_ltb t s = false.
Proof.
  revert t. induction s as [|a s IH]; intros [|b t]; simpl; intros H; try discriminate;
    try reflexivity.
  apply orb_true_iff in H as [H|H].
  - apply Z.ltb_lt in H.
    rewrite (proj2 (Z.ltb_ge b a)) by lia. rewrite (proj2 (Z.eqb_neq b a)) by lia.
    reflexivity.
  - apply andb_prop in H as [H1 H2]. apply Z.eqb_eq in H1. subst b.
    rewrite Z.ltb_irrefl, Z.eqb_refl, (IH _ H2). reflexivity.
Qed.

Lemma str_ltb_total (s t : pystr) : s <> t -> str_ltb s t = true \/ str_ltb t s = true.
Proof.
  revert t. induction s as [|a s IH]; intros [|b t] Hne; simpl;
    try (exfalso; apply Hne; reflexivity); auto.
  destruct (Z.lt_trichotomy a b) as [Hab|[<-|Hab]].
  - left. apply orb_true_iff. left. apply Z.ltb_lt, Hab.
  - rewrite Z.ltb_irrefl, Z.eqb_refl. cbn [orb andb].
    apply IH. intros ->. apply Hne. reflexivity.
  - right. apply orb_true_iff. left. apply Z.ltb_lt, Hab.
Qed.

(** [sorted(xs)] on strings: a rearrangement of [xs] in non-decreasing
    order, strictly increasing when [xs] has no duplicates. *)
Lemma py_sorted_str_spec (xs : list pystr) :
  Permutation (py_sorted_str xs) xs /\
  Sorted (fun a b => str_ltb b a = false) (py_sorted_str xs) /\
  (NoDup xs -> Sorted (fun a b => str_ltb a b = true) (py_sorted_str xs)).
Proof.
  assert (Htot : forall x y, negb (str_ltb y x) = false -> negb (str_ltb x y) = true).
  { intros x y H. apply negb_false_iff in H. apply negb_true_iff, str_ltb_asym, H. }
  assert (Hs := sort_by_sorted (fun y x => negb (str_ltb x y)) Htot xs).
  fold (py_sorted_str xs) in Hs.
  split; [apply sort_by_perm|]. split.
  - eapply Sorted_mono; [|exact Hs]. intros a c H. apply negb_true_iff, H.
  - intros Hnd. apply (Sorted_distinct_keys id (fun a c => negb (str_ltb c a) = true)).
    + intros a c H Hne. apply negb_true_iff in H.
      destruct (str_ltb_total a c Hne) as [H'|H']; congruence.
    + rewrite List.map_id. unfold py_sorted_str. rewrite sort_by_perm. exact Hnd.
    + exact Hs.
Qed.

(** [save_cleaned_domains] writes the header "Domain" and then every
    domain once per occurrence, in ascending code-point order; for the
    duplicate-free list [load_domains] builds, strictly ascending. *)
Theorem save_cleaned_domains_sorted (domains : list pystr) :
  exists sorted_domains,
    save_cleaned_domains domains = [s2z "Domain"] :: map (fun d => [d]) sorted_domains /\
    Permutation sorted_domains domains /\
    Sorted (fun a b => str_ltb b a = false) sorted_domains /\
    (NoDup domains -> Sorted (fun a b => str_ltb a b = true) sorted_domains).
Proof.
  exists (py_sorted_str domains). split; [reflexivity|]. apply py_sorted_str_spec.
Qed.

(* ------------------------------------------------------------------ *)
(** * The report files and quick summary of generate_summary_report *)

Section OrderedDict.

Context {K : Type} `{EqDecision K}.

Lemma od_get_set (k k' : K) (v : nat) (d : list (K * nat)) :
  od_get k' (od_set k v d) = if decide (k' = k) then Some v else od_get k' d.
Proof.
  induction d as [|[k0 v0] d IH]; simpl.
  - destruct (decide (k' = k)); reflexivity.
  - destruct (decide (k = k0)) as [->|Hne]; simpl.
    + destruct (decide (k' = k0)); reflexivity.
    + destruct (decide (k' = k0)) as [->|Hne'].
      * destruct (decide (k0 = k)); [congruence|reflexivity].
      * exact IH.
Qed.

Lemma od_get_bump (k k' : K) (d : list (K * nat)) :
  od_get k' (od_bump k d) =
    if decide (k' = k) then Some (S (default 0%nat (od_get k d))) else od_get k' d.
Proof.
  unfold od_bump. destruct (od_get k d) as [n|] eqn:E.
  - rewrite od_get_set, E. reflexivity.
  - rewrite !od_get_set. rewrite (decide_True (P := k = k)) by reflexivity.
    destruct (decide (k' = k)); reflexivity.
Qed.

Lemma od_keys_set (k x : K) (v : nat) (d : list (K * nat)) :
  In x (map fst (od_set k v d)) <-> x = k \/ In x (map fst d).
Proof.
  induction d as [|[k0 v0] d IH]; simpl.
  - intuition.
  - destruct (decide (k = k0)) as [->|Hne]; simpl; [intuition|]. rewrite IH. intuition.
Qed.

Lemma od_set_nodup (k : K) (v : nat) (d : list (K * nat)) :
  NoDup (map fst d) -> NoDup (map fst (od_set k v d)).
Proof.
  induction d as [|[k0 v0] d IH]; simpl; intros Hnd.
  - constructor; [set_solver|constructor].
  - apply NoDup_cons in Hnd as [Hn Hnd].
    destruct (decide (k = k0)) as [->|Hne]; simpl; apply NoDup_cons; split; auto.
    rewrite list_elem_of_In, od_keys_set, <- list_elem_of_In. intros [->|H]; auto.
Qed.

Lemma od_bump_nodup (k : K) (d : list (K * nat)) :
  NoDup (map fst d) -> NoDup (map fst (od_bump k d)).
Proof.
  intros Hnd. unfold od_bump. apply od_set_nodup.
  destruct (od_get k d); [exact Hnd|apply od_set_nodup, Hnd].
Qed.

Lemma od_get_none (k : K) (d : list (K * nat)) : od_get k d = None <-> ~ In k (map fst d).
Proof.
  induction d as [|[k0 v0] d IH]; simpl; [tauto|].
  destruct (decide (k = k0)) as [->|Hne]; [split; [discriminate|tauto]|].
  rewrite IH. intuition.
Qed.

Lemma od_get_in (k : K) (v : nat) (d : list (K * nat)) :
  NoDup (map fst d) -> (od_get k d = Some v <-> In (k, v) d).
Proof.
  induction d as [|[k0 v0] d IH]; simpl; intros Hnd; [split; [discriminate|tauto]|].
  apply NoDup_cons in Hnd as [Hn Hnd]. rewrite list_elem_of_In in Hn.
  destruct (decide (k = k0)) as [->|Hne].
  - split; [intros [= ->]; left; reflexivity|].
    intros [[= ->]|Hin]; [reflexivity|].
    exfalso. apply Hn. apply in_map_iff. exists (k0, v). auto.
  - rewrite IH by exact Hnd. split; [auto|]. intros [[= -> _]|Hin]; [congruence|exact Hin].
Qed.

Lemma od_fold_get (f : probe_result -> K) rs (d : list (K * nat)) k :
  od_get k (fold_left (fun d r => od_bump (f r) d) rs d) =
    match od_get k d with
    | Some n => Some (n + count_by f k rs)%nat
    | None => count_entry (count_by f k rs)
    end.
Proof.
  revert d. induction rs as [|r rs IH]; intros d; simpl.
  - destruct (od_get k d) as [n|]; [rewrite Nat.add_0_r|]; reflexivity.
  - rewrite IH, od_get_bump. unfold count_by. simpl.
    destruct (decide (k = f r)) as [Hk|Hk].
    + rewrite bool_decide_true by congruence. rewrite <- Hk. simpl.
      destruct (od_get k d) as [n|]; simpl; [f_equal; lia|reflexivity].
    + rewrite bool_decide_false by congruence. reflexivity.
Qed.

Lemma od_fold_nodup (f : probe_result -> K) rs (d : list (K * nat)) :
  NoDup (map fst d) -> NoDup (map fst (fold_left (fun d r => od_bump (f r) d) rs d)).
Proof.
  revert d. induction rs as [|r rs IH]; intros d Hnd; simpl; [exact Hnd|].
  apply IH, od_bump_nodup, Hnd.
Qed.

End OrderedDict.

Lemma report_loop_fold rs dd ss :
  report_loop rs dd ss =
    (fold_left (fun d r => od_bump (domain r) d) rs dd,
     fold_left (fun d r => od_bump (status_code r) d) rs ss).
Proof.
  revert dd ss. induction rs as [|r rs IH]; intros dd ss; [reflexivity|]. apply IH.
Qed.

Lemma count_entry_some (m n : nat) : count_entry m = Some n <-> m = n /\ (0 < n)%nat.
Proof.
  destruct m as [|m]; simpl.
  - split; [discriminate|lia].
  - split; [intros [= <-]; lia|intros [<- _]; reflexivity].
Qed.

Lemma count_by_pos {K} `{EqDecision K} (f : probe_result -> K) k rs :
  (0 < count_by f k rs)%nat <-> exists r, In r rs /\ f r = k.
Proof.
  unfold count_by. induction rs as [|r rs IH]; simpl.
  - split; [lia|intros [r [[] _]]].
  - destruct (bool_decide (f r = k)) eqn:E.
    + apply bool_decide_eq_true in E. simpl. split; [intros _; exists r; auto|lia].
    + apply bool_decide_eq_false in E. rewrite IH.
      split; [intros [r' [H1 H2]]; eauto|intros [r' [[<-|H1] H2]]; [contradiction|eauto]].
Qed.

(** The two dicts of the report, keeping Python's item order. *)
Lemma summary_files_shape (rs : list probe_result) :
  match summary_files rs with
  | None => rs = []
  | Some rep =>
      exists dd ss it rest,
        dd = fold_left (fun d r => od_bump (domain r) d) rs [] /\
        ss = fold_left (fun d r => od_bump (status_code r) d) rs [] /\
        dd = it :: rest /\
        (forall k, od_get k dd = count_entry (count_by domain k rs)) /\ NoDup (map fst dd) /\
        (forall c, od_get c ss = count_entry (count_by status_code c rs)) /\
        NoDup (map fst ss) /\
        rep = {| domain_rows := domain_summary_rows dd;
                 status_rows := status_summary_rows ss;
                 domains_with_urls := length dd;
                 most_productive := (max_item it rest).1;
                 most_urls := max_value it.2 (map snd rest);
                 successful :=
                   if nonempty (successful_codes ss)
                   then Some (successful_count ss) else None |}
  end.
Proof.
  destruct rs as [|r rs']; [reflexivity|].
  unfold summary_files. cbn [nonempty negb]. rewrite report_loop_fold.
  remember (fold_left (fun d r0 => od_bump (domain r0) d) (r :: rs') []) as dd eqn:Edd.
  remember (fold_left (fun d r0 => od_bump (status_code r0) d) (r :: rs') []) as ss eqn:Ess.
  assert (Hd : forall k, od_get k dd = count_entry (count_by domain k (r :: rs'))).
  { intros k. rewrite Edd, od_fold_get. reflexivity. }
  assert (Hs : forall c, od_get c ss = count_entry (count_by status_code c (r :: rs'))).
  { intros c. rewrite Ess, od_fold_get. reflexivity. }
  assert (Hnd : NoDup (map fst dd)) by (rewrite Edd; apply od_fold_nodup; constructor).
  assert (Hns : NoDup (map fst ss)) by (rewrite Ess; apply od_fold_nodup; constructor).
  destruct dd as [|it rest].
  - exfalso. specialize (Hd (domain r)). simpl in Hd.
    assert (Hp : (0 < count_by domain (domain r) (r :: rs'))%nat).
    { apply count_by_pos. exists r. split; [left|]; reflexivity. }
    destruct (count_by domain (domain r) (r :: rs')); [lia|discriminate].
  - exists (it :: rest), ss, it, rest. repeat split; assumption || reflexivity.
Qed.

Lemma od_in_count {K} `{EqDecision K} (f : probe_result -> K) rs (d : list (K * nat)) k n :
  (forall k, od_get k d = count_entry (count_by f k rs)) -> NoDup (map fst d) ->
  (In (k, n) d <-> count_by f k rs = n /\ (0 < n)%nat).
Proof.
  intros Hd Hnd. rewrite <- od_get_in by exact Hnd. rewrite Hd. apply count_entry_some.
Qed.

Lemma od_keys_count {K} `{EqDecision K} (f : probe_result -> K) rs (d : list (K * nat)) k :
  (forall k, od_get k d = count_entry (count_by f k rs)) ->
  (In k (map fst d) <-> exists r, In r rs /\ f r = k).
Proof.
  intros Hd. rewrite <- count_by_pos.
  assert (H := od_get_none k d). rewrite Hd in H.
  destruct (count_by f k rs) as [|m]; simpl in H; split; intros H'; try lia.
  - exfalso. apply (proj1 H); [reflexivity|exact H'].
  - destruct (in_dec (decide_rel eq) k (map fst d)) as [Hin|Hnin]; [exact Hin|].
    apply H in Hnin. discriminate.
Qed.

(** The domain summary file: one row per domain with at least one result,
    carrying its number of results, rows ordered by that number from the
    largest down. *)
Theorem summary_files_domain_rows (rs : list probe_result) :
  match summary_files rs with
  | None => rs = []
  | Some rep =>
      NoDup (map fst (domain_rows rep)) /\
      (forall d n, In (d, n) (domain_rows rep) <-> count_by domain d rs = n /\ (0 < n)%nat) /\
      Sorted (fun a b => (b.2 <= a.2)%nat) (domain_rows rep)
  end.
Proof.
  assert (Hsh := summary_files_shape rs).
  destruct (summary_files rs) as [rep|]; [|exact Hsh].
  destruct Hsh as [dd [ss [it [rest [_ [_ [_ [Hd [Hnd [_ [_ ->]]]]]]]]]]]. cbn [domain_rows].
  assert (Hp := sort_by_perm (fun y x => Nat.leb x.2 y.2) dd).
  fold (domain_summary_rows dd) in Hp.
  split; [|split].
  - rewrite (Permutation_map fst Hp). exact Hnd.
  - intros d n. rewrite <- (od_in_count domain rs dd d n Hd Hnd).
    split; [apply Permutation_in, Hp|apply Permutation_in; symmetry; exact Hp].
  - eapply Sorted_mono; [|apply sort_by_sorted].
    + intros a c H. apply Nat.leb_le, H.
    + intros x y H. apply Nat.leb_gt in H. apply Nat.leb_le. lia.
Qed.

(** The status summary file: one row per status code met, carrying its
    number of results, rows in strictly ascending code order. *)
Theorem summary_files_status_rows (rs : list probe_result) :
  match summary_files rs with
  | None => rs = []
  | Some rep =>
      NoDup (map fst (status_rows rep)) /\
      (forall c n, In (c, n) (status_rows rep) <->
                   count_by status_code c rs = n /\ (0 < n)%nat) /\
      Sorted (fun a b => a.1 < b.1) (status_rows rep)
  end.
Proof.
  assert (Hsh := summary_files_shape rs).
  destruct (summary_files rs) as [rep|]; [|exact Hsh].
  destruct Hsh as [dd [ss [it [rest [_ [_ [_ [_ [_ [Hs [Hns ->]]]]]]]]]]]. cbn [status_rows].
  assert (Hp := sort_by_perm (fun y x => tuple_le y x) ss).
  fold (status_summary_rows ss) in Hp.
  assert (Hnd' : NoDup (map fst (status_summary_rows ss))).
  { rewrite (Permutation_map fst Hp). exact Hns. }
  split; [exact Hnd'|split].
  - intros c n. rewrite <- (od_in_count status_code rs ss c n Hs Hns).
    split; [apply Permutation_in, Hp|apply Permutation_in; symmetry; exact Hp].
  - apply (Sorted_distinct_keys fst (fun a c => tuple_le a c = true)); [|exact Hnd'|].
    + intros [a1 a2] [c1 c2] H Hne. unfold tuple_le in H. simpl in *.
      apply orb_true_iff in H as [H|H]; [apply Z.ltb_lt, H|].
      apply andb_prop in H as [H _]. apply Z.eqb_eq in H. contradiction.
    + apply sort_by_sorted. intros [a1 a2] [c1 c2]. unfold tuple_le. simpl.
      intros H. apply orb_false_iff in H as [H1 H2]. apply Z.ltb_ge in H1.
      destruct (Z.eqb_spec a1 c1) as [->|Hne].
      * rewrite Z.ltb_irrefl, Z.eqb_refl in *. simpl in *.
        apply Nat.leb_gt in H2. apply Nat.leb_le. lia.
      * apply orb_true_iff. left. apply Z.ltb_lt. lia.
Qed.

Lemma max_item_spec (best : pystr * nat) (items : list (pystr * nat)) :
  In (max_item best items) (best :: items) /\
  Forall (fun it => (it.2 <= (max_item best items).2)%nat) (best :: items).
Proof.
  revert best. induction items as [|it items IH]; intros best; simpl.
  - split; [auto|repeat constructor].
  - destruct (Nat.ltb best.2 it.2) eqn:E.
    + apply Nat.ltb_lt in E. destruct (IH it) as [Hin Hf].
      split; [simpl in Hin; tauto|].
      inversion Hf; subst. repeat constructor; [lia|assumption|assumption].
    + apply Nat.ltb_ge in E. destruct (IH best) as [Hin Hf].
      split; [simpl in Hin; tauto|].
      inversion Hf; subst. repeat constructor; [assumption|lia|assumption].
Qed.

Lemma max_value_item (best : pystr * nat) (items : list (pystr * nat)) :
  max_value best.2 (map snd items) = (max_item best items).2.
Proof.
  revert best. induction items as [|it items IH]; intros best; simpl; [reflexivity|].
  destruct (Nat.ltb best.2 it.2); apply IH.
Qed.

(** The quick summary: the "most productive domain" has the largest
    number of results, and that number is the one printed with it; the
    number of domains printed is the number of distinct [domain] values. *)
Theorem summary_files_quick_summary (rs : list probe_result) :
  match summary_files rs with
  | None => rs = []
  | Some rep =>
      count_by domain (most_productive rep) rs = most_urls rep /\
      (forall d, (count_by domain d rs <= most_urls rep)%nat) /\
      domains_with_urls rep = size (list_to_set (map domain rs) : gset pystr)
  end.
Proof.
  assert (Hsh := summary_files_shape rs).
  destruct (summary_files rs) as [rep|]; [|exact Hsh].
  destruct Hsh as [dd [ss [it [rest [_ [_ [Edd [Hd [Hnd [_ [_ ->]]]]]]]]]]].
  cbn [most_productive most_urls domains_with_urls].
  destruct (max_item_spec it rest) as [Hin Hf]. rewrite <- Edd in Hin, Hf.
  rewrite max_value_item.
  split; [|split].
  - destruct (max_item it rest) as [m c] eqn:Em. simpl.
    apply (od_in_count domain rs dd m c Hd Hnd) in Hin as [H _]. exact H.
  - intros d. destruct (count_by domain d rs) as [|n] eqn:Ec; [lia|].
    assert (Hi : In (d, S n) dd).
    { apply (od_in_count domain rs dd d (S n) Hd Hnd). split; [exact Ec|lia]. }
    rewrite List.Forall_forall in Hf. apply Hf in Hi. exact Hi.
  - assert (Hset : (list_to_set (map fst dd) : gset pystr) = list_to_set (map domain rs)).
    { apply set_eq. intros k. rewrite !elem_of_list_to_set, !list_elem_of_In.
      rewrite (od_keys_count domain rs dd k Hd), in_map_iff.
      split; intros [r [H1 H2]]; exists r; auto. }
    rewrite <- Hset, size_list_to_set by exact Hnd. rewrite length_map. reflexivity.
Qed.

Lemma fold_add {A} (f : A -> nat) (l : list A) (a : nat) :
  fold_left (fun acc x => (acc + f x)%nat) l a = (a + sum_list_with f l)%nat.
Proof.
  revert a. induction l as [|x l IH]; intros a; simpl; [lia|]. rewrite IH. lia.
Qed.

Lemma sum_list_with_in_ext {A} (f g : A -> nat) (l : list A) :
  (forall x, In x l -> f x = g x) -> sum_list_with f l = sum_list_with g l.
Proof.
  induction l as [|x l IH]; intros H; simpl; [reflexivity|].
  rewrite (H x (or_introl eq_refl)), IH; [reflexivity|]. intros y Hy. apply H. right. exact Hy.
Qed.

Lemma ok_sum_set (k : Z) (v : nat) (d : list (Z * nat)) :
  (sum_list_with (fun '(c, n) => if ((200 <=? c) && (c <? 400))%Z then n else 0%nat) (od_set k v d) +
   (if ((200 <=? k) && (k <? 400))%Z then default 0%nat (od_get k d) else 0%nat) =
   sum_list_with (fun '(c, n) => if ((200 <=? c) && (c <? 400))%Z then n else 0%nat) d +
   (if ((200 <=? k) && (k <? 400))%Z then v else 0%nat))%nat.
Proof.
  induction d as [|[k0 v0] d IH]; simpl.
  - destruct (((200 <=? k) && (k <? 400))%Z); simpl; lia.
  - destruct (decide (k = k0)) as [->|Hne]; simpl.
    + destruct ((200 <=? k0) && (k0 <? 400)); simpl; lia.
    + lia.
Qed.

Lemma ok_sum_bump (k : Z) (d : list (Z * nat)) :
  sum_list_with (fun '(c, n) => if ((200 <=? c) && (c <? 400))%Z then n else 0%nat) (od_bump k d) =
  (sum_list_with (fun '(c, n) => if ((200 <=? c) && (c <? 400))%Z then n else 0%nat) d +
   if ((200 <=? k) && (k <? 400))%Z then 1 else 0)%nat.
Proof.
  unfold od_bump.
  set (d1 := match od_get k d with None => od_set k 0%nat d | Some _ => d end).
  assert (H1 := ok_sum_set k (S (default 0%nat (od_get k d1))) d1).
  assert (H0 : sum_list_with (fun '(c, n) => if ((200 <=? c) && (c <? 400))%Z then n else 0%nat) d1 =
               sum_list_with (fun '(c, n) => if ((200 <=? c) && (c <? 400))%Z then n else 0%nat) d).
  { unfold d1. destruct (od_get k d) eqn:E; [reflexivity|].
    assert (H2 := ok_sum_set k 0 d). rewrite E in H2. simpl in H2.
    destruct (((200 <=? k) && (k <? 400))%Z); lia. }
  destruct (((200 <=? k) && (k <? 400))%Z); lia.
Qed.

Lemma ok_sum_fold (rs : list probe_result) (d : list (Z * nat)) :
  sum_list_with (fun '(c, n) => if ((200 <=? c) && (c <? 400))%Z then n else 0%nat)
    (fold_left (fun d r => od_bump (status_code r) d) rs d) =
  (sum_list_with (fun '(c, n) => if ((200 <=? c) && (c <? 400))%Z then n else 0%nat) d +
   length (List.filter (fun r => ((200 <=? status_code r) && (status_code r <? 400))%Z) rs))%nat.
Proof.
  revert d. induction rs as [|r rs IH]; intros d; simpl; [lia|].
  rewrite IH, ok_sum_bump.
  destruct (((200 <=? status_code r) && (status_code r <? 400))%Z); simpl; lia.
Qed.

Lemma successful_count_sum (ss : list (Z * nat)) :
  NoDup (map fst ss) ->
  successful_count ss =
    sum_list_with (fun '(c, n) => if ((200 <=? c) && (c <? 400))%Z then n else 0%nat) ss.
Proof.
  unfold successful_count, successful_codes. rewrite fold_add. simpl.
  induction ss as [|[k v] ss IH]; intros Hnd; simpl; [reflexivity|].
  apply NoDup_cons in Hnd as [Hn Hnd]. rewrite list_elem_of_In in Hn.
  assert (Hext : sum_list_with
                   (fun code => default 0%nat (if decide (code = k) then Some v else od_get code ss))
                   (List.filter (fun code => ((200 <=? code) && (code <? 400))%Z) (map fst ss)) =
                 sum_list_with (fun code => default 0%nat (od_get code ss))
                   (List.filter (fun code => ((200 <=? code) && (code <? 400))%Z) (map fst ss))).
  { apply sum_list_with_in_ext. intros c Hc. apply filter_In in Hc as [Hc _]. simpl.
    destruct (decide (c = k)) as [->|]; [contradiction|reflexivity]. }
  destruct (((200 <=? k) && (k <? 400))%Z); simpl.
  - rewrite decide_True by reflexivity. simpl. rewrite Hext, IH by exact Hnd. reflexivity.
  - rewrite Hext, IH by exact Hnd. reflexivity.
Qed.

Lemma ok_sum_no_codes (ss : list (Z * nat)) :
  successful_codes ss = [] ->
  sum_list_with (fun '(c, n) => if ((200 <=? c) && (c <? 400))%Z then n else 0%nat) ss = 0%nat.
Proof.
  unfold successful_codes. induction ss as [|[k v] ss IH]; simpl; [reflexivity|].
  destruct (((200 <=? k) && (k <? 400))%Z); [discriminate|]. intros H. rewrite IH by exact H.
  reflexivity.
Qed.

(** The "Successful responses (2xx/3xx)" line: printed exactly when some
    result has a status code in [200, 400), and then it gives the number
    of such results. *)
Lemma filter_length_zero {A} (f : A -> bool) (l : list A) :
  length (List.filter f l) = 0%nat -> Forall (fun x => f x = false) l.
Proof.
  induction l as [|x l IH]; simpl; intros H; [constructor|].
  destruct (f x) eqn:E; [discriminate|]. constructor; auto.
Qed.

(** The "Successful responses (2xx/3xx)" line: printed exactly when some
    result has a status code in [200, 400), and then it gives the number
    of such results. *)
Theorem summary_files_successful (rs : list probe_result) :
  match summary_files rs with
  | None => rs = []
  | Some rep =>
      default 0%nat (successful rep) =
        length (List.filter (fun r => ((200 <=? status_code r) && (status_code r <? 400))%Z) rs) /\
      (successful rep = None <->
       Forall (fun r => ~ (200 <= status_code r < 400)) rs)
  end.
Proof.
  assert (Hsh := summary_files_shape rs).
  destruct (summary_files rs) as [rep|]; [|exact Hsh].
  destruct Hsh as [dd [ss [it [rest [_ [Ess [_ [_ [_ [Hs [Hns ->]]]]]]]]]]]. cbn [successful].
  assert (Hsum : sum_list_with (fun '(c, n) => if ((200 <=? c) && (c <? 400))%Z then n else 0%nat) ss =
                 length (List.filter (fun r => ((200 <=? status_code r) && (status_code r <? 400))%Z) rs)).
  { rewrite Ess, ok_sum_fold. reflexivity. }
  destruct (successful_codes ss) as [|c cs] eqn:Ec; cbn [nonempty].
  - rewrite ok_sum_no_codes in Hsum by exact Ec. simpl. split; [exact Hsum|].
    split; [intros _|reflexivity].
    symmetry in Hsum. apply filter_length_zero in Hsum.
    eapply List.Forall_impl; [|exact Hsum]. intros r H [H1 H2].
    apply andb_false_iff in H as [H|H]; [apply Z.leb_gt in H|apply Z.ltb_ge in H]; lia.
  - simpl. rewrite successful_count_sum by exact Hns. split; [exact Hsum|].
    split; [discriminate|]. intros Hf. exfalso.
    assert (Hc : In c (successful_codes ss)) by (rewrite Ec; left; reflexivity).
    unfold successful_codes in Hc. apply filter_In in Hc as [Hc Hok].
    apply (od_keys_count status_code rs ss c Hs) in Hc as [r [Hr Hrc]].
    rewrite List.Forall_forall in Hf. apply (Hf r Hr). subst c.
    apply andb_prop in Hok as [H1 H2]. apply Z.leb_le in H1. apply Z.ltb_lt in H2. lia.
Qed.

(* ------------------------------------------------------------------ *)
(** * cuba_domain.py: CubanInfrastructureMapper *)

Lemma py_join_cons (sep p : pystr) (ps : list pystr) :
  ps <> [] -> py_join sep (p :: ps) = p ++ sep ++ py_join sep ps.
Proof. destruct ps; [contradiction|reflexivity]. Qed.

Lemma py_join_app (sep : pystr) (l1 l2 : list pystr) :
  l1 <> [] -> l2 <> [] -> py_join sep (l1 ++ l2) = py_join sep l1 ++ sep ++ py_join sep l2.
Proof.
  intros H1 H2. induction l1 as [|p l1 IH]; [contradiction|].
  destruct l1 as [|q l1].
  - simpl. apply py_join_cons, H2.
  - assert (Hq : q :: l1 <> []) by (intros Hc; discriminate Hc).
    transitivity (p ++ sep ++ py_join sep ((q :: l1) ++ l2)); [reflexivity|].
    rewrite (IH Hq).
    transitivity ((p ++ sep ++ py_join sep (q :: l1)) ++ sep ++ py_join sep l2);
      [rewrite <- !app_assoc; reflexivity|reflexivity].
Qed.

Lemma py_split_aux_spec (sep : Z) (s cur : pystr) :
  py_join [sep] (py_split_aux sep s cur) = rev cur ++ s /\
  (~ In sep cur -> Forall (fun p => ~ In sep p) (py_split_aux sep s cur)) /\
  length (py_split_aux sep s cur) = S (length (List.filter (fun c => c =? sep) s)).
Proof.
  revert cur. induction s as [|c s IH]; intros cur; simpl.
  - rewrite app_nil_r. split; [reflexivity|]. split; [|reflexivity].
    intros H. constructor; [|constructor]. rewrite <- in_rev. exact H.
  - destruct (Z.eqb_spec c sep) as [->|Hne].
    + destruct (IH []) as [Hj [Hf Hl]]. split; [|split].
      * rewrite py_join_cons by (intros Hc; rewrite Hc in Hl; discriminate Hl).
        rewrite Hj. reflexivity.
      * intros H. constructor; [rewrite <- in_rev; exact H|apply Hf; intros []].
      * simpl. rewrite Hl. reflexivity.
    + destruct (IH (c :: cur)) as [Hj [Hf Hl]]. split; [|split].
      * rewrite Hj. simpl. rewrite <- app_assoc. reflexivity.
      * intros H. apply Hf. intros [->|H']; [apply Hne; reflexivity|contradiction].
      * exact Hl.
Qed.

(** ['.'.join(s.split('.'))] gives [s] back (any one-character
    separator). *)
Lemma py_split_join (sep : Z) (s : pystr) : py_join [sep] (py_split sep s) = s.
Proof. unfold py_split. apply (py_split_aux_spec sep s []). Qed.

Lemma filter_eqb_nil (sep : Z) (s : pystr) :
  length (List.filter (fun c => c =? sep) s) = 0%nat -> ~ In sep s.
Proof.
  induction s as [|c s IH]; simpl; [auto|].
  destruct (Z.eqb_spec c sep) as [->|Hne]; [discriminate|].
  intros H [->|Hin]; [apply Hne; reflexivity|exact (IH H Hin)].
Qed.

(** [base = '.'.join(parts[-2:])] is the last two labels of the domain:
    the domain is the base itself or ends in '.' followed by the base,
    and the base holds exactly one '.'.  A domain without '.' has no
    base. *)
Theorem base_of_last_two_labels (d : pystr) :
  match Mapper.base_of d with
  | None => ~ In 46 d
  | Some b =>
      (d = b \/ exists p, d = p ++ [46] ++ b) /\
      exists l1 l2, b = l1 ++ [46] ++ l2 /\ ~ In 46 l1 /\ ~ In 46 l2
  end.
Proof.
  unfold Mapper.base_of.
  destruct (py_split_aux_spec 46 d []) as [Hj [Hf Hl]].
  specialize (Hf (fun H => H)). change (rev [] ++ d) with d in Hj.
  fold (py_split 46 d) in Hj, Hf, Hl.
  remember (py_split 46 d) as parts eqn:Ep.
  destruct (Nat.leb_spec 2 (length parts)) as [H2|H2].
  - assert (Hd : length (drop (length parts - 2) parts) = 2%nat) by (rewrite length_drop; lia).
    destruct (drop (length parts - 2) parts) as [|a [|b' [|x rest]]] eqn:Edrop;
      simpl in Hd; try discriminate.
    assert (Hparts : parts = take (length parts - 2) parts ++ [a; b'])
      by (rewrite <- Edrop; symmetry; apply take_drop).
    rewrite Hparts in Hf. apply Forall_app in Hf as [_ Hf].
    apply List.Forall_cons_iff in Hf as [Ha Hf'].
    apply List.Forall_cons_iff in Hf' as [Hb _].
    split.
    + rewrite <- Hj, Hparts.
      destruct (take (length parts - 2) parts) as [|p0 pre] eqn:Epre.
      * left. reflexivity.
      * right. exists (py_join [46] (p0 :: pre)).
        rewrite py_join_app by (intros Hc; discriminate Hc). reflexivity.
    + exists a, b'. split; [reflexivity|auto].
  - apply filter_eqb_nil. lia.
Qed.

Lemma lstrip_in (s : pystr) (x : Z) : In x (lstrip s) -> In x s.
Proof.
  induction s as [|c s IH]; simpl; [auto|].
  destruct (is_space c); [intros H; right; apply IH, H|auto].
Qed.

Lemma strip_in (s : pystr) (x : Z) : In x (strip s) -> In x s.
Proof.
  unfold strip. intros H. apply in_rev, lstrip_in, in_rev, lstrip_in in H. exact H.
Qed.

Section MapperFacts.

Lemma add_name_mem (S : gset pystr) (x d : pystr) :
  d ∈ Mapper.add_name S x ->
  d ∈ S \/ (d = py_lower (strip x) /\ d <> [] /\ startswith d (s2z "*") = false).
Proof.
  unfold Mapper.add_name. cbv zeta.
  destruct (nonempty (py_lower (strip x)) && negb (startswith (py_lower (strip x)) (s2z "*")))
    eqn:E; [|intros H; left; exact H].
  rewrite elem_of_union, elem_of_singleton. intros [->|H]; [right|left; exact H].
  apply andb_prop in E as [E1 E2]. apply negb_true_iff in E2.
  split; [reflexivity|]. split; [apply nonempty_true, E1|exact E2].
Qed.

Lemma add_name_sub (S : gset pystr) (x : pystr) : S ⊆ Mapper.add_name S x.
Proof.
  unfold Mapper.add_name. cbv zeta.
  destruct (_ && _); [apply union_subseteq_r|reflexivity].
Qed.

Lemma fold_add_name_mem (names : list pystr) (S : gset pystr) (d : pystr) :
  d ∈ fold_left Mapper.add_name names S ->
  d ∈ S \/ exists line, In line names /\ d = py_lower (strip line) /\ d <> [] /\
                        startswith d (s2z "*") = false.
Proof.
  revert S. induction names as [|x names IH]; intros S H; cbn [fold_left] in H; [left; exact H|].
  destruct (IH _ H) as [H1|[line [Hl Hd]]]; [|right; exists line; split; [right; exact Hl|exact Hd]].
  destruct (add_name_mem S x d H1) as [H2|Hd]; [left; exact H2|].
  right. exists x. split; [left; reflexivity|exact Hd].
Qed.

Lemma fold_add_name_sub (names : list pystr) (S : gset pystr) :
  S ⊆ fold_left Mapper.add_name names S.
Proof.
  revert S. induction names as [|x names IH]; intros S; cbn [fold_left]; [reflexivity|].
  etransitivity; [apply add_name_sub|apply IH].
Qed.

Lemma add_entries_mem (data : list Mapper.ct_entry) (S : gset pystr) (d : pystr) :
  d ∈ Mapper.add_entries data S ->
  d ∈ S \/ exists nv name line,
    In (Mapper.CTObject nv) data /\ default (Mapper.JString []) nv = Mapper.JString name /\
    In line (py_split 10 name) /\ d = py_lower (strip line) /\ d <> [] /\
    startswith d (s2z "*") = false.
Proof.
  revert S. induction data as [|[nv|] data IH]; intros S H; cbn [Mapper.add_entries] in H;
    [left; exact H| |left; exact H].
  destruct (default (Mapper.JString []) nv) as [name|] eqn:En; [|left; exact H].
  destruct (IH _ H) as [H1|[nv' [name' [line [Hin Hd]]]]].
  - destruct (fold_add_name_mem _ _ _ H1) as [H2|[line [Hl Hd]]]; [left; exact H2|].
    right. exists nv, name, line. split; [left; reflexivity|]. split; [exact En|]. auto.
  - right. exists nv', name', line. split; [right; exact Hin|exact Hd].
Qed.

Lemma add_entries_sub (data : list Mapper.ct_entry) (S : gset pystr) :
  S ⊆ Mapper.add_entries data S.
Proof.
  revert S. induction data as [|[nv|] data IH]; intros S; cbn [Mapper.add_entries];
    [reflexivity| |reflexivity].
  destruct (default (Mapper.JString []) nv) as [name|]; [|reflexivity].
  etransitivity; [apply fold_add_name_sub|apply IH].
Qed.

Variable crt : pystr -> Mapper.ct_reply.

Lemma search_tld_mem (S : gset pystr) (tld d : pystr) :
  d ∈ Mapper.search_tld crt S tld ->
  d ∈ S \/ exists data nv name line,
    crt (Mapper.crt_url tld) = Mapper.CTReply 200 (Mapper.BodyItems data) /\
    In (Mapper.CTObject nv) data /\ default (Mapper.JString []) nv = Mapper.JString name /\
    In line (py_split 10 name) /\ d = py_lower (strip line) /\ d <> [] /\
    startswith d (s2z "*") = false.
Proof.
  unfold Mapper.search_tld.
  destruct (crt (Mapper.crt_url tld)) as [|st body] eqn:Ec; [intros H; left; exact H|].
  destruct (Z.eqb_spec st 200) as [->|_]; [|intros H; left; exact H].
  destruct body as [| |data]; try (intros H; left; exact H).
  intros H. destruct (add_entries_mem _ _ _ H) as [H1|[nv [name [line Hd]]]]; [left; exact H1|].
  right. exists data, nv, name, line. split; [reflexivity|exact Hd].
Qed.

Lemma search_tld_sub (S : gset pystr) (tld : pystr) : S ⊆ Mapper.search_tld crt S tld.
Proof.
  unfold Mapper.search_tld.
  destruct (crt (Mapper.crt_url tld)) as [|st body]; [reflexivity|].
  destruct (st =? 200); [|reflexivity].
  destruct body as [| |data]; [reflexivity|reflexivity|apply add_entries_sub].
Qed.

Lemma fold_search_tld (tlds : list pystr) (S : gset pystr) :
  S ⊆ fold_left (Mapper.search_tld crt) tlds S /\
  forall d, d ∈ fold_left (Mapper.search_tld crt) tlds S ->
  d ∈ S \/ exists tld data nv name line,
    In tld tlds /\ crt (Mapper.crt_url tld) = Mapper.CTReply 200 (Mapper.BodyItems data) /\
    In (Mapper.CTObject nv) data /\ default (Mapper.JString []) nv = Mapper.JString name /\
    In line (py_split 10 name) /\ d = py_lower (strip line) /\ d <> [] /\
    startswith d (s2z "*") = false.
Proof.
  revert S. induction tlds as [|tld tlds IH]; intros S; cbn [fold_left].
  - split; [reflexivity|]. intros d H. left. exact H.
  - destruct (IH (Mapper.search_tld crt S tld)) as [Hsub Hmem]. split.
    + etransitivity; [apply search_tld_sub|exact Hsub].
    + intros d H. destruct (Hmem d H) as [H1|[t [data [nv [name [line [Ht Hd]]]]]]].
      * destruct (search_tld_mem _ _ _ H1) as [H2|[data [nv [name [line Hd]]]]];
          [left; exact H2|].
        right. exists tld, data, nv, name, line. split; [left; reflexivity|exact Hd].
      * right. exists t, data, nv, name, line. split; [right; exact Ht|exact Hd].
Qed.

End MapperFacts.

(** [search_certificates] keeps every domain found before, and every
    domain it adds is a line of the [name_value] string of an entry of the
    JSON list that one of the two crt.sh queries answered with status 200,
    stripped and lower-cased: non-empty, lower-case, free of '\n' and not
    starting with '*'.  A failure (a request error, a non-200 status, a
    body that is not JSON, an entry that is not an object or a
    [name_value] that is not a string) ends the loop it happens in, but
    never removes a name added before it. *)
Theorem search_certificates_names (crt : pystr -> Mapper.ct_reply) (S : gset pystr) :
  S ⊆ Mapper.search_certificates crt S /\
  forall d, d ∈ Mapper.search_certificates crt S ->
  d ∈ S \/
  ((exists tld data nv name line,
      In tld Mapper.tlds /\ crt (Mapper.crt_url tld) = Mapper.CTReply 200 (Mapper.BodyItems data) /\
      In (Mapper.CTObject nv) data /\ default (Mapper.JString []) nv = Mapper.JString name /\
      In line (py_split 10 name) /\ d = py_lower (strip line)) /\
   d <> [] /\ py_lower d = d /\ ~ In 10 d /\ startswith d (s2z "*") = false).
Proof.
  destruct (fold_search_tld crt Mapper.tlds S) as [Hsub Hmem].
  split; [exact Hsub|]. intros d H.
  destruct (Hmem d H) as [H1|[tld [data [nv [name [line [Ht [Hc [Hin [Hn [Hl [-> [Hne Hst]]]]]]]]]]]]];
    [left; exact H1|right].
  split; [exists tld, data, nv, name, line; auto 7|].
  split; [exact Hne|]. split; [apply py_lower_idem|]. split; [|exact Hst].
  intros H10. apply py_lower_in in H10 as [H10|H10]; [|lia].
  apply strip_in in H10.
  destruct (py_split_aux_spec 10 name []) as [_ [Hf _]].
  specialize (Hf (fun H => H)). rewrite List.Forall_forall in Hf.
  exact (Hf line Hl H10).
Qed.

Lemma sub_record_eta (r : Mapper.sub_record) :
  r = {| Mapper.sd_domain := Mapper.sd_domain r; Mapper.sd_ip := Mapper.sd_ip r;
         Mapper.sd_method := Mapper.sd_method r |}.
Proof. destruct r. reflexivity. Qed.

(** The rows [save_results] writes for the records of
    [enumerate_subdomains]: word by word, one row per address. *)
Lemma enumerate_subdomains_rows (resolve : pystr -> option (list pystr))
  (base_domain : pystr) (words : list pystr) :
  map (fun r => [Mapper.sd_domain r; Mapper.sd_ip r; Mapper.sd_method r])
    (Mapper.enumerate_subdomains resolve base_domain words) =
  flat_map (fun word => match resolve (word ++ [46] ++ base_domain) with
                        | Some answers =>
                            map (fun ip => [word ++ [46] ++ base_domain; ip; s2z "dns_enum"]) answers
                        | None => []
                        end) words.
Proof.
  induction words as [|word words IH]; cbn [Mapper.enumerate_subdomains flat_map]; [reflexivity|].
  rewrite map_app, IH. f_equal.
  destruct (resolve (word ++ [46] ++ base_domain)); [|reflexivity].
  rewrite map_map. reflexivity.
Qed.

(** [enumerate_subdomains] records one row per address of every word
    whose name resolves, in the order of the words and, for one word, of
    the addresses; a word whose lookup raises adds nothing and the loop
    goes on. *)
Theorem enumerate_subdomains_spec (resolve : pystr -> option (list pystr))
  (base_domain : pystr) (words : list pystr) :
  (forall r, In r (Mapper.enumerate_subdomains resolve base_domain words) <->
     exists word answers,
       In word words /\ resolve (word ++ [46] ++ base_domain) = Some answers /\
       In (Mapper.sd_ip r) answers /\ Mapper.sd_domain r = word ++ [46] ++ base_domain /\
       Mapper.sd_method r = s2z "dns_enum") /\
  length (Mapper.enumerate_subdomains resolve base_domain words) =
    sum_list_with (fun word => match resolve (word ++ [46] ++ base_domain) with
                               | Some answers => length answers
                               | None => 0%nat
                               end) words /\
  map (fun r => [Mapper.sd_domain r; Mapper.sd_ip r; Mapper.sd_method r])
    (Mapper.enumerate_subdomains resolve base_domain words) =
  flat_map (fun word => match resolve (word ++ [46] ++ base_domain) with
                        | Some answers =>
                            map (fun ip => [word ++ [46] ++ base_domain; ip; s2z "dns_enum"]) answers
                        | None => []
                        end) words.
Proof.
  split; [|split; [|apply enumerate_subdomains_rows]].
  - induction words as [|word words IH]; simpl.
    + intros r. split; [intros []|intros [w [a [[] _]]]].
    + intros r. rewrite in_app_iff, IH. split.
      * intros [H|[w [a [Hw Hr]]]]; [|exists w, a; auto].
        destruct (resolve (word ++ 46 :: base_domain)) as [answers|] eqn:E; [|destruct H].
        apply in_map_iff in H as [ip [<- Hip]]. exists word, answers. simpl. auto.
      * intros [w [a [[<-|Hw] [Hr [Hip [Hd Hm]]]]]]; [left|right; exists w, a; auto].
        simpl in Hr. rewrite Hr. apply in_map_iff. exists (Mapper.sd_ip r).
        split; [|exact Hip]. rewrite (sub_record_eta r) at 2. rewrite Hd, Hm. reflexivity.
  - induction words as [|word words IH]; simpl; [reflexivity|].
    rewrite length_app, IH. destruct (resolve _); [rewrite length_map|]; reflexivity.
Qed.

Lemma in_base_domains (S : gset pystr) (b : pystr) :
  In b (py_sorted_str (elements (Mapper.base_domains S))) <->
  exists d, d ∈ S /\ Mapper.base_of d = Some b.
Proof.
  destruct (py_sorted_str_spec (elements (Mapper.base_domains S))) as [Hp _].
  split.
  - intros H. apply (Permutation_in _ Hp) in H. apply list_elem_of_In in H.
    apply elem_of_elements in H. unfold Mapper.base_domains in H.
    apply elem_of_list_to_set, list_elem_of_omap in H as [d [Hd Hb]].
    exists d. split; [apply elem_of_elements, Hd|exact Hb].
  - intros [d [Hd Hb]]. apply (Permutation_in _ (Permutation_sym Hp)).
    apply list_elem_of_In, elem_of_elements. unfold Mapper.base_domains.
    apply elem_of_list_to_set, list_elem_of_omap. exists d.
    split; [apply elem_of_elements, Hd|exact Hb].
Qed.

(** The bases [check_all_subdomains] walks through: each base domain of
    the known domains once, in strictly ascending order. *)
Lemma sorted_base_domains (S : gset pystr) :
  Sorted (fun a b => str_ltb a b = true) (py_sorted_str (elements (Mapper.base_domains S))) /\
  (forall b, In b (py_sorted_str (elements (Mapper.base_domains S))) <->
             exists d, d ∈ S /\ Mapper.base_of d = Some b).
Proof.
  destruct (py_sorted_str_spec (elements (Mapper.base_domains S))) as [_ [_ Hs]].
  split; [apply Hs, NoDup_elements|apply in_base_domains].
Qed.

(** [check_all_subdomains] extends the results already there with the
    records [enumerate_subdomains] gives for each base domain (the last
    two labels of a known domain), every base once, bases in strictly
    ascending order. *)
Theorem check_all_subdomains_spec (resolve : pystr -> option (list pystr))
  (all_domains : gset pystr) (subdomain_results : list Mapper.sub_record) :
  exists bases,
    Mapper.check_all_subdomains resolve all_domains subdomain_results =
      subdomain_results ++
      flat_map (fun b => Mapper.enumerate_subdomains resolve b Mapper.wordlist) bases /\
    Sorted (fun a b => str_ltb a b = true) bases /\
    (forall b, In b bases <-> exists d, d ∈ all_domains /\ Mapper.base_of d = Some b).
Proof.
  exists (py_sorted_str (elements (Mapper.base_domains all_domains))).
  split; [reflexivity|apply sorted_base_domains].
Qed.

(** The two files of [save_results]: the header "Domain" and every known
    domain once, in strictly ascending order; the subdomain file only when
    there are subdomain results, with a header and one row per result. *)
Theorem mapper_save_results_rows (all_domains : gset pystr)
  (subdomain_results : list Mapper.sub_record) :
  (exists sorted_domains,
     (Mapper.save_results all_domains subdomain_results).1 =
       [s2z "Domain"] :: map (fun d => [d]) sorted_domains /\
     (forall d, In d sorted_domains <-> d ∈ all_domains) /\
     Sorted (fun a b => str_ltb a b = true) sorted_domains) /\
  ((Mapper.save_results all_domains subdomain_results).2 = None <-> subdomain_results = []) /\
  (forall rows, (Mapper.save_results all_domains subdomain_results).2 = Some rows ->
     length rows = S (length subdomain_results)).
Proof.
  destruct (py_sorted_str_spec (elements all_domains)) as [Hp [_ Hs]].
  split; [|split].
  - exists (py_sorted_str (elements all_domains)). split; [reflexivity|]. split.
    + intros d. rewrite <- elem_of_elements, list_elem_of_In.
      split; [apply Permutation_in, Hp|apply Permutation_in, Permutation_sym, Hp].
    + apply Hs, NoDup_elements.
  - simpl. destruct subdomain_results; simpl; split; congruence.
  - simpl. destruct subdomain_results; simpl; [discriminate|].
    intros rows [= <-]. simpl. rewrite length_map. reflexivity.
Qed.

(** [run] end to end: the subdomain file holds, after its header, for
    each base domain (last two labels) of the names found in the
    certificate logs, in strictly ascending order, and for each word of
    the word list in order, one row [word.base, ip, 'dns_enum'] per
    address [ip] the resolver gave for [word.base]; it is written exactly
    when there is at least one such row. *)
Theorem mapper_run_subdomain_rows (crt : pystr -> Mapper.ct_reply)
  (resolve : pystr -> option (list pystr)) :
  exists bases,
    Sorted (fun a b => str_ltb a b = true) bases /\
    (forall b, In b bases <->
               exists d, d ∈ Mapper.search_certificates crt ∅ /\ Mapper.base_of d = Some b) /\
    let rows :=
      flat_map (fun b =>
        flat_map (fun word => match resolve (word ++ [46] ++ b) with
                              | Some answers => map (fun ip => [word ++ [46] ++ b; ip; s2z "dns_enum"]) answers
                              | None => []
                              end) Mapper.wordlist) bases in
    (Mapper.run crt resolve).2 =
      if nonempty rows then Some (map s2z ["domain"; "ip"; "method"]%string :: rows) else None.
Proof.
  exists (py_sorted_str (elements (Mapper.base_domains (Mapper.search_certificates crt ∅)))).
  destruct (sorted_base_domains (Mapper.search_certificates crt ∅)) as [Hs Hin].
  split; [exact Hs|]. split; [exact Hin|]. cbv zeta.
  unfold Mapper.run, Mapper.save_results, Mapper.check_all_subdomains. cbn [snd].
  rewrite app_nil_l.
  generalize (py_sorted_str (elements (Mapper.base_domains (Mapper.search_certificates crt ∅)))).
  intros bases.
  assert (Hm : map (fun r => [Mapper.sd_domain r; Mapper.sd_ip r; Mapper.sd_method r])
                 (flat_map (fun b => Mapper.enumerate_subdomains resolve b Mapper.wordlist) bases) =
               flat_map (fun b =>
                 flat_map (fun word => match resolve (word ++ [46] ++ b) with
                                       | Some answers =>
                                           map (fun ip => [word ++ [46] ++ b; ip; s2z "dns_enum"]) answers
                                       | None => []
                                       end) Mapper.wordlist) bases).
  { induction bases as [|b bases IH]; cbn [flat_map]; [reflexivity|].
    rewrite map_app, IH, enumerate_subdomains_rows. reflexivity. }
  rewrite <- Hm.
  destruct (flat_map (fun b => Mapper.enumerate_subdomains resolve b Mapper.wordlist) bases);
    reflexivity.
Qed.

(* ------------------------------------------------------------------ *)
(** * Results and request budget of check_url and probe_domain *)

Section NetworkBounds.

Variable net : history -> pystr -> get_outcome.
Variable clock : history -> pystr.
Variable urlparse_netloc : pystr -> option pystr.

Lemma build_result_fields (u : pystr) (resp : response) (h : history) r :
  build_result clock urlparse_netloc u resp h = Some r ->
  url r = u /\ (length (title r) <= 200)%nat.
Proof.
  unfold build_result. destruct (urlparse_netloc (resp_url resp)); [|discriminate].
  intros [= <-]. cbn [url title]. split; [reflexivity|].
  unfold extract_title.
  destruct (py_find _ _ 0) as [start|]; [|simpl; lia].
  destruct (py_find _ _ start) as [end_|]; [|simpl; lia].
  rewrite length_take. lia.
Qed.

(** A result of [check_url] has a title of at most 200 characters and
    reports the URL that was fetched last: the requested one after one
    GET, or its http rewrite after an SSL error on an https URL and a
    second GET. *)
Theorem check_url_result_fields (u : pystr) (h : history) r h' :
  check_url net clock urlparse_netloc u h = (Some r, h') ->
  (length (title r) <= 200)%nat /\
  ((url r = u /\ h' = h ++ [Get u]) \/
   (startswith u (s2z "https://") = true /\
    url r = replace (s2z "https://") (s2z "http://") u /\
    h' = h ++ [Get u; Get (url r)])).
Proof.
  unfold check_url. cbn [check_url_fuel].
  destruct (net h u) as [resp| |] eqn:E1.
  - intros [= Hb <-]. destruct (build_result_fields _ _ _ _ Hb) as [Hu Ht].
    split; [exact Ht|left; auto].
  - destruct (startswith u (s2z "https://")) eqn:Hs; [|discriminate].
    cbn [check_url_fuel].
    rewrite (replace_https_not_https u Hs).
    destruct (net (h ++ [Get u]) (replace (s2z "https://") (s2z "http://") u)) as [resp| |];
      [|discriminate|discriminate].
    intros [= Hb <-]. destruct (build_result_fields _ _ _ _ Hb) as [Hu Ht].
    split; [exact Ht|right]. rewrite Hu, <- app_assoc. auto.
  - discriminate.
Qed.

Lemma check_url_gets (u : pystr) (h : history) res h' :
  check_url net clock urlparse_netloc u h = (res, h') ->
  exists new, h' = h ++ new /\ Forall is_get new /\ (length new <= 2)%nat.
Proof.
  unfold check_url. cbn [check_url_fuel].
  destruct (net h u) as [resp| |].
  - intros [= _ <-]. exists [Get u]. split; [reflexivity|]. split; [repeat constructor|simpl; lia].
  - destruct (startswith u (s2z "https://")) eqn:Hs.
    + cbn [check_url_fuel]. rewrite (replace_https_not_https u Hs).
      destruct (net (h ++ [Get u]) _); intros [= _ <-];
        exists [Get u; Get (replace (s2z "https://") (s2z "http://") u)];
        (split; [rewrite <- app_assoc; reflexivity|]);
        (split; [repeat constructor|simpl; lia]).
    + intros [= _ <-]. exists [Get u]. split; [reflexivity|]. split; [repeat constructor|simpl; lia].
  - intros [= _ <-]. exists [Get u]. split; [reflexivity|]. split; [repeat constructor|simpl; lia].
Qed.

Lemma gets_count_all (l : history) :
  Forall is_get l ->
  length (List.filter (fun e => match e with Get _ => true | _ => false end) l) = length l.
Proof.
  induction 1 as [|e l He _ IH]; [reflexivity|].
  destruct e; simpl in *; [rewrite IH; reflexivity|contradiction|contradiction].
Qed.

Lemma path_loop_step (p : protocol) (d path : pystr) (ps : list pystr) found h :
  exists res h1 f,
    check_url net clock urlparse_netloc (urljoin (base_url p d) path) h = (res, h1) /\
    (path_loop net clock urlparse_netloc p d (path :: ps) found h = (f, h1 ++ [Attempt p path res]) \/
     path_loop net clock urlparse_netloc p d (path :: ps) found h =
       path_loop net clock urlparse_netloc p d ps f (h1 ++ [Attempt p path res; Sleep])).
Proof.
  cbn [path_loop].
  destruct (check_url net clock urlparse_netloc (urljoin (base_url p d) path) h) as [res h1].
  exists res, h1.
  destruct res as [r|].
  - destruct (status_code r <? 500).
    + destruct (_ && _).
      * exists (found ++ [r]). split; [reflexivity|left; reflexivity].
      * exists (found ++ [r]). split; [reflexivity|right]. rewrite <- app_assoc. reflexivity.
    + exists found. split; [reflexivity|right]. rewrite <- app_assoc. reflexivity.
  - exists found. split; [reflexivity|right]. rewrite <- app_assoc. reflexivity.
Qed.

Lemma path_loop_bound (p : protocol) (d : pystr) (ps : list pystr) found h found' h' :
  path_loop net clock urlparse_netloc p d ps found h = (found', h') ->
  exists new, h' = h ++ new /\ (length (attempts new) <= length ps)%nat /\
    (length (List.filter (fun e => match e with Get _ => true | _ => false end) new)
       <= 2 * length ps)%nat.
Proof.
  revert found h. induction ps as [|path ps IH]; intros found h Hl.
  - injection Hl as <- <-. exists []. rewrite app_nil_r. split; [reflexivity|simpl; lia].
  - destruct (path_loop_step p d path ps found h) as [res [h1 [f [Ec [Hp|Hp]]]]];
      destruct (check_url_gets _ _ _ _ Ec) as [new0 [-> [Hg Hlen]]];
      rewrite Hp in Hl.
    + injection Hl as _ <-. exists (new0 ++ [Attempt p path res]).
      rewrite <- app_assoc. split; [reflexivity|].
      rewrite attempts_app, List.filter_app, !length_app, attempts_gets by exact Hg.
      rewrite gets_count_all by exact Hg. simpl. lia.
    + destruct (IH _ _ Hl) as [new1 [-> [Ha Hc]]].
      exists (new0 ++ [Attempt p path res; Sleep] ++ new1).
      rewrite <- !app_assoc. split; [reflexivity|].
      rewrite !attempts_app, !List.filter_app, !length_app, attempts_gets by exact Hg.
      rewrite gets_count_all by exact Hg. simpl. lia.
Qed.

(** One [probe_domain] call makes at most 82 [check_url] calls (41 paths,
    two protocols) and at most 164 GET requests (each [check_url] at most
    two). *)
Theorem probe_domain_request_budget (d : pystr) (h : history) :
  exists new,
    snd (probe_domain net clock urlparse_netloc d h) = h ++ new /\
    new_attempts net clock urlparse_netloc d h = attempts new /\
    (length (attempts new) <= 82)%nat /\
    (length (List.filter (fun e => match e with Get _ => true | _ => false end) new) <= 164)%nat.
Proof.
  assert (Hp : length paths = 41%nat) by reflexivity.
  destruct (path_loop net clock urlparse_netloc Https d paths [] h) as [f1 h1] eqn:E1.
  destruct (path_loop_bound _ _ _ _ _ _ _ E1) as [new1 [-> [Ha1 Hg1]]].
  destruct (probe_domain_cases net clock urlparse_netloc d h f1 (h ++ new1) E1) as [[_ E]|[_ E]].
  - exists new1. rewrite E. cbn [snd]. split; [reflexivity|].
    split; [apply (new_attempts_app net clock urlparse_netloc d h new1 f1 E)|]. lia.
  - destruct (path_loop net clock urlparse_netloc Http d paths [] (h ++ new1)) as [f2 h2] eqn:E2.
    destruct (path_loop_bound _ _ _ _ _ _ _ E2) as [new2 [-> [Ha2 Hg2]]].
    rewrite <- app_assoc in E.
    exists (new1 ++ new2). rewrite E. cbn [snd]. split; [rewrite app_assoc; reflexivity|].
    split; [apply (new_attempts_app net clock urlparse_netloc d h (new1 ++ new2) f2 E)|].
    rewrite attempts_app, List.filter_app, !length_app. lia.
Qed.

End NetworkBounds.

Lemma check_url_result_fields_witness :
  check_url net_all_ok demo_clock demo_netloc (s2z "https://a.example.cu/") [] =
    (Some demo_result, [Get (s2z "https://a.example.cu/")]) /\
  ((length (title demo_result) <= 200)%nat /\
   ((url demo_result = s2z "https://a.example.cu/" /\
     [Get (s2z "https://a.example.cu/")] = [] ++ [Get (s2z "https://a.example.cu/")]) \/
    (startswith (s2z "https://a.example.cu/") (s2z "https://") = true /\
     url demo_result = replace (s2z "https://") (s2z "http://") (s2z "https://a.example.cu/") /\
     [Get (s2z "https://a.example.cu/")] =
       [] ++ [Get (s2z "https://a.example.cu/"); Get (url demo_result)]))).
Proof.
  split; [vm_compute; reflexivity|].
  apply (check_url_result_fields net_all_ok demo_clock demo_netloc
           (s2z "https://a.example.cu/") [] demo_result [Get (s2z "https://a.example.cu/")]).
  vm_compute. reflexivity.
Defined.

